(** * Athenz Terraform provider: Role and Top-Level Domain reconcilers

    A shallow embedding of [athenz/resource_role.go] and
    [athenz/resource_top_level_domain.go].  The remote ZMS service is an
    external collaborator: a resource callback is a tree of client calls
    ([prog]), and [run] executes it against an arbitrary client, recording
    the calls that were issued. *)

From Stdlib Require Import ZArith Ascii String.
From stdpp Require Import gmap strings list pretty.

Local Open Scope string_scope.
Local Open Scope list_scope.
Local Open Scope Z_scope.

(** ** Go's [strings] package (the part the provider uses) *)

Module go_strings.

(** [strings.HasPrefix(s, prefix)] *)
Fixpoint HasPrefix (s prefix : string) {struct prefix} : bool :=
  match prefix, s with
  | EmptyString, _ => true
  | String _ _, EmptyString => false
  | String p prefix', String c s' => Ascii.eqb c p && HasPrefix s' prefix'
  end.

(** [strings.Index(s, sep)]: position of the first instance of [sep] in
    [s]; [None] stands for Go's [-1]. *)
Fixpoint Index (s sep : string) : option nat :=
  if HasPrefix s sep then Some 0%nat
  else match s with
       | EmptyString => None
       | String _ s' => S <$> Index s' sep
       end.

(** The slices [s[:n]] and [s[n:]] (for [n] within bounds). *)
Fixpoint slice_to (n : nat) (s : string) : string :=
  match n, s with
  | S n', String c s' => String c (slice_to n' s')
  | _, _ => EmptyString
  end.

Fixpoint slice_from (n : nat) (s : string) : string :=
  match n, s with
  | S n', String _ s' => slice_from n' s'
  | _, _ => s
  end.

(** [explode(s, -1)]: one string per character. *)
Fixpoint explode (s : string) : list string :=
  match s with
  | EmptyString => []
  | String c s' => String c EmptyString :: explode s'
  end.

(** The loop of [genSplit(s, sep, 0, n)]: at most [n] cuts, the rest of
    the string is the last component. *)
Fixpoint genSplit (n : nat) (s sep : string) : list string :=
  match n with
  | O => [s]
  | S n' =>
      match Index s sep with
      | None => [s]
      | Some m =>
          slice_to m s :: genSplit n' (slice_from (m + String.length sep) s) sep
      end
  end.

(** [strings.Split(s, sep)].  Go bounds the loop by the number of
    separators, itself at most [len(s)]; the bound used here is [len(s)],
    see [genSplit_fuel]. *)
Definition Split (s sep : string) : list string :=
  match sep with
  | EmptyString => explode s
  | _ => genSplit (String.length s) s sep
  end.

End go_strings.

(** ** Errors, as the callbacks tell them apart *)

(** A Go [error] value: either an [rdl.ResourceError] (the structured error
    of the ZMS client) or any other error (transport failures, [fmt.Errorf]). *)
Inductive error : Type :=
| ResourceError (Code : Z) (Message : string)
| errorString (s : string).

(** [err.Error()], which is what the verb [%s] prints. *)
Definition Error (e : error) : string :=
  match e with
  | ResourceError Code Message => pretty Code +:+ " " +:+ Message
  | errorString s => s
  end.

(** [%s] applied to an [error] interface value that may be [nil]. *)
Definition fmt_s (e : option error) : string :=
  match e with
  | Some e => Error e
  | None => "%!s(<nil>)"
  end.

(** ** ZMS data (package [zms]) *)

Record RoleMember : Type := mkRoleMember {
  MemberName : string;
  Expiration : option Z
}.

Record Role : Type := mkRole {
  Name : string;
  Modified : option Z;
  Members : list string;
  RoleMembers : list RoleMember;
  Trust : string;
  Tags : gmap string (list string)
}.

Record TopLevelDomain : Type := mkTopLevelDomain {
  tld_Name : string;
  tld_AdminUsers : list string;
  tld_YpmId : option Z
}.

Record Domain : Type := mkDomain {
  dom_Name : string;
  dom_YpmId : option Z
}.

(** [role.Tags = tags]: assignment to one field of the role. *)
Definition set_Tags (role : Role) (tags : gmap string (list string)) : Role :=
  mkRole (Name role) (Modified role) (Members role) (RoleMembers role)
         (Trust role) tags.

(** ** The client facade (interface [client.ZmsClient]) *)

(** Modelled from the spec: the interface [client.ZmsClient] is declared in
    the [client] package; its methods are taken from the call sites and from
    the table of client operations (fetch role or domain, create or replace a
    role, add or remove one role member, create or delete a domain). *)
Inductive ZmsCall : Type :=
| GetRole (dn rn : string)
| PutRole (dn rn auditRef : string) (role : Role)
| DeleteRole (dn rn auditRef : string)
| PutMembership (dn rn : string) (member : RoleMember) (auditRef : string)
| DeleteMembership (dn rn : string) (member : string) (auditRef : string)
| GetDomain (dn : string)
| PostTopLevelDomain (auditRef : string) (detail : TopLevelDomain)
| DeleteTopLevelDomain (dn auditRef : string).

(** What each method returns; a pointer result may be [nil] ([None]). *)
Definition Response (c : ZmsCall) : Type :=
  match c with
  | GetRole _ _ => (option Role * option error)%type
  | GetDomain _ => (option Domain * option error)%type
  | PostTopLevelDomain _ _ => (option TopLevelDomain * option error)%type
  | PutRole _ _ _ _ | DeleteRole _ _ _
  | PutMembership _ _ _ _ | DeleteMembership _ _ _ _
  | DeleteTopLevelDomain _ _ => option error
  end.

(** A client: answers every call, possibly changing the remote state. *)
Definition ZmsClient (σ : Type) : Type := ∀ c : ZmsCall, σ → Response c * σ.

(** ** Callbacks as trees of client calls *)

Inductive prog (A : Type) : Type :=
| Ret (a : A)
| Panic (msg : string)
| Call (c : ZmsCall) (k : Response c → prog A).
Arguments Ret {A} a.
Arguments Panic {A} msg.
Arguments Call {A} c k.

Fixpoint bind {A B : Type} (p : prog A) (f : A → prog B) : prog B :=
  match p with
  | Ret a => f a
  | Panic msg => Panic msg
  | Call c k => Call c (λ r, bind (k r) f)
  end.

#[global] Instance prog_ret : MRet prog := @Ret.
#[global] Instance prog_bind : MBind prog := λ A B f p, bind p f.
#[global] Instance prog_fmap : FMap prog := λ A B f p, bind p (λ a, Ret (f a)).

Definition call (c : ZmsCall) : prog (Response c) := Call c Ret.

(** How a callback ends: it returns, or the Go runtime panics. *)
Inductive outcome (A : Type) : Type :=
| Returned (a : A)
| Panicked (msg : string).
Arguments Returned {A} a.
Arguments Panicked {A} msg.

(** Run a callback against a client; the list is the calls issued, in order. *)
Fixpoint run {σ A : Type} (zms : ZmsClient σ) (p : prog A) (s : σ)
  : outcome A * σ * list ZmsCall :=
  match p with
  | Ret a => (Returned a, s, [])
  | Panic msg => (Panicked msg, s, [])
  | Call c k =>
      let '(r, s1) := zms c s in
      let '(o, s2, t) := run zms (k r) s1 in
      (o, s2, c :: t)
  end.

Definition result {σ A : Type} (x : outcome A * σ * list ZmsCall) : outcome A := x.1.1.
Definition final {σ A : Type} (x : outcome A * σ * list ZmsCall) : σ := x.1.2.
Definition trace {σ A : Type} (x : outcome A * σ * list ZmsCall) : list ZmsCall := x.2.

(** [a[i]] on a slice: a run-time panic when [i] is out of range. *)
Definition index {A : Type} (a : list A) (i : nat) : prog A :=
  match a !! i with
  | Some x => Ret x
  | None => Panic "runtime error: index out of range"
  end.

(** ** The framework's resource data ([schema.ResourceData]) *)

Inductive ValueType : Type := TypeString | TypeInt | TypeSet | TypeMap.

(** Attribute values as the framework hands them out: a string, an int, a
    [*schema.Set] of strings (compared by element), a list of strings (what
    the flatten helpers build) or a string-to-string map. *)
Inductive value : Type :=
| VString (s : string)
| VInt (n : Z)
| VSet (xs : gset string)
| VList (l : list string)
| VMap (m : gmap string string).

#[global] Instance value_eq_dec : EqDecision value.
Proof. solve_decision. Defined.

Definition Schema : Type := string → option ValueType.

Definition zero_value (ty : ValueType) : value :=
  match ty with
  | TypeString => VString ""
  | TypeInt => VInt 0
  | TypeSet => VSet ∅
  | TypeMap => VMap ∅
  end.

(** [prior] is the state before the change, [planned] the configuration
    merged with it (defaults already filled in by the framework) and
    [written] what the callback has stored with [d.Set]. *)
Record ResourceData : Type := mkResourceData {
  d_Id : string;
  prior : gmap string value;
  planned : gmap string value;
  written : gmap string value
}.

Definition d_SetId (d : ResourceData) (id : string) : ResourceData :=
  mkResourceData id (prior d) (planned d) (written d).

Definition zero_of (sch : Schema) (key : string) : value :=
  match sch key with
  | Some ty => zero_value ty
  | None => VString ""
  end.

(** [d.Get(key)]: the value written last, else the planned one, else the
    zero value of the attribute's type. *)
Definition d_Get (sch : Schema) (d : ResourceData) (key : string) : value :=
  match written d !! key with
  | Some v => v
  | None => default (zero_of sch key) (planned d !! key)
  end.

(** [d.GetOk(key)]: the value, and whether it is set to a non-zero value. *)
Definition d_GetOk (sch : Schema) (d : ResourceData) (key : string) : value * bool :=
  let v := d_Get sch d key in
  (v, bool_decide (v ≠ zero_of sch key)).

(** [d.GetChange(key)]: the value before and after the change. *)
Definition d_GetChange (sch : Schema) (d : ResourceData) (key : string) : value * value :=
  (default (zero_of sch key) (prior d !! key),
   default (zero_of sch key) (planned d !! key)).

(** [d.HasChange(key)] *)
Definition d_HasChange (sch : Schema) (d : ResourceData) (key : string) : bool :=
  let '(o, n) := d_GetChange sch d key in bool_decide (o ≠ n).

(** The value [d.Set] stores for an attribute of type [ty], if it accepts it. *)
Definition coerce (ty : ValueType) (v : value) : option value :=
  match ty, v with
  | TypeString, VString _ | TypeInt, VInt _ | TypeSet, VSet _ | TypeMap, VMap _ => Some v
  | TypeSet, VList l => Some (VSet (list_to_set l))
  | _, _ => None
  end.

(** [d.Set(key, v)]: an error for an unknown attribute or a value of the
    wrong type; the data is changed only on success. *)
Definition d_Set (sch : Schema) (d : ResourceData) (key : string) (v : value)
  : ResourceData * option error :=
  match sch key with
  | None => (d, Some (errorString ("Invalid address to set: " +:+ key)))
  | Some ty =>
      match coerce ty v with
      | Some v' =>
          (mkResourceData (d_Id d) (prior d) (planned d) (<[key := v']> (written d)), None)
      | None => (d, Some (errorString (key +:+ ": wrong type of value")))
      end
  end.

(** Type assertions [v.(string)], [v.(int)], the set assertion and
    [v.(map[string]interface{})]: a panic on any other dynamic type. *)
Definition as_string (v : value) : prog string :=
  match v with VString s => Ret s | _ => Panic "interface conversion: not a string" end.

Definition as_int (v : value) : prog Z :=
  match v with VInt n => Ret n | _ => Panic "interface conversion: not an int" end.

Definition as_set (v : value) : prog (gset string) :=
  match v with VSet xs => Ret xs | _ => Panic "interface conversion: not a *schema.Set" end.

Definition as_map (v : value) : prog (gmap string string) :=
  match v with VMap m => Ret m | _ => Panic "interface conversion: not a map" end.

(** The methods [List], [Len] and [Difference] of [schema.Set]. *)
Definition List (xs : gset string) : list string := elements xs.
Definition Len (xs : gset string) : nat := size xs.
Definition Difference (xs ys : gset string) : gset string := xs ∖ ys.

(** [int32(n)] applied to an [int]. *)
Definition int32 (n : Z) : Z := (n + 2 ^ 31) mod 2 ^ 32 - 2 ^ 31.

(** ** Shared constants and helpers of package [athenz] *)

(** Modelled from the spec: the constant [ROLE_SEPARATOR] is declared
    outside the two resource files; a role identifier is
    [<domain>:role.<role-name>]. *)
Definition ROLE_SEPARATOR : string := ":role.".

(** Modelled from the spec: [expandRoleMembers] is declared outside the two
    resource files; it expands a flat list of member names into membership
    records (no expiration is configured for them). *)
Definition expandRoleMembers (configured : list string) : list RoleMember :=
  (λ name, mkRoleMember name None) <$> configured.

(** Modelled from the spec: [flattenRoleMembers] is declared outside the two
    resource files; it flattens membership records back into member names. *)
Definition flattenRoleMembers (members : list RoleMember) : list string :=
  MemberName <$> members.

(** Modelled from the spec: [expandRoleTags] is declared outside the two
    resource files; a configured tag is one key with a single value. *)
Definition expandRoleTags (tags : gmap string string) : gmap string (list string) :=
  (λ v, [v]) <$> tags.

(** Modelled from the spec: [flattenTag] is declared outside the two
    resource files; it maps a tag key back to its value (several values are
    joined with commas). *)
Definition flattenTag (tags : gmap string (list string)) : gmap string string :=
  String.concat "," <$> tags.

(** Modelled from the spec: [convertToZmsResourceNameList] is declared
    outside the two resource files; it retypes the admin-user names. *)
Definition convertToZmsResourceNameList (names : list string) : list string := names.

(** Modelled from the spec: [handleChange] is declared outside the two
    resource files; it returns the framework-supplied before and after sets
    of a collection attribute. *)
Definition handleChange (sch : Schema) (d : ResourceData) (key : string)
  : prog (gset string * gset string) :=
  let '(o, n) := d_GetChange sch d key in
  os ← as_set o;
  ns ← as_set n;
  mret (os, ns).

(** Modelled from the spec: [updateRoleMembers] is declared outside the two
    resource files; it issues one remove call per member to remove, then one
    add call per member to add, each with the audit reference, and stops at
    the first call that fails. *)
Fixpoint deleteMembers (dn rn : string) (remove : list RoleMember) (auditRef : string)
  : prog (option error) :=
  match remove with
  | [] => mret None
  | m :: remove' =>
      err ← call (DeleteMembership dn rn (MemberName m) auditRef);
      match err with
      | Some e => mret (Some e)
      | None => deleteMembers dn rn remove' auditRef
      end
  end.

Fixpoint putMembers (dn rn : string) (add : list RoleMember) (auditRef : string)
  : prog (option error) :=
  match add with
  | [] => mret None
  | m :: add' =>
      err ← call (PutMembership dn rn m auditRef);
      match err with
      | Some e => mret (Some e)
      | None => putMembers dn rn add' auditRef
      end
  end.

Definition updateRoleMembers (dn rn : string) (remove add : list RoleMember)
    (auditRef : string) : prog (option error) :=
  err ← deleteMembers dn rn remove auditRef;
  match err with
  | Some e => mret (Some e)
  | None => putMembers dn rn add auditRef
  end.

(** ** resource_role.go *)

(** The [Schema] of [ResourceRole()]. *)
Definition RoleSchema : Schema := λ key,
  if String.eqb key "domain" then Some TypeString
  else if String.eqb key "name" then Some TypeString
  else if String.eqb key "members" then Some TypeSet
  else if String.eqb key "audit_ref" then Some TypeString
  else if String.eqb key "tags" then Some TypeMap
  else None.

(** Line 65: the identifier [resourceRoleCreate] builds for a role. *)
Definition fullResourceName (dn rn : string) : string :=
  dn +:+ ROLE_SEPARATOR +:+ rn.

(** Lines 104-105, 146-147 and 176-177: the stored identifier is split at
    the separator and its first two components are taken. *)
Definition splitResourceName (id : string) : prog (string * string) :=
  let fullResourceName := go_strings.Split id ROLE_SEPARATOR in
  dn ← index fullResourceName 0;
  rn ← index fullResourceName 1;
  mret (dn, rn).

Definition resourceRoleRead (d : ResourceData) : prog (ResourceData * option error) :=
  '(dn, rn) ← splitResourceName (d_Id d);
  let '(d, err) := d_Set RoleSchema d "domain" (VString dn) in
  match err with
  | Some _ => mret (d, err)
  | None =>
  let '(d, err) := d_Set RoleSchema d "name" (VString rn) in
  match err with
  | Some _ => mret (d, err)
  | None =>
  '(role, err) ← call (GetRole dn rn);
  match err with
  | Some (ResourceError Code Message as v) =>
      if Code =? 404 then
        mret (d_SetId d "", None)
      else
        mret (d, Some (errorString
                ("error retrieving Athenz Role " +:+ d_Id d +:+ ": " +:+ Error v)))
  | Some _ => mret (d, err)
  | None =>
  match role with
  | None =>
      mret (d, Some (errorString
              "error retrieving Athenz Role - Make sure your cert/key are valid"))
  | Some role =>
  let '(d, err) :=
    if bool_decide (0 < length (RoleMembers role))%nat
    then d_Set RoleSchema d "members" (VList (flattenRoleMembers (RoleMembers role)))
    else (d, None) in
  match err with
  | Some _ => mret (d, err)
  | None =>
  let '(d, err) :=
    if bool_decide (0 < size (Tags role))%nat
    then d_Set RoleSchema d "tags" (VMap (flattenTag (Tags role)))
    else (d, None) in
  match err with
  | Some _ => mret (d, err)
  | None => mret (d, None)
  end end end end end end.

Definition resourceRoleCreate (d : ResourceData) : prog (ResourceData * option error) :=
  dn ← as_string (d_Get RoleSchema d "domain");
  rn ← as_string (d_Get RoleSchema d "name");
  let fullResourceName := fullResourceName dn rn in
  let finish := resourceRoleRead (d_SetId d fullResourceName) in
  '(roleCheck, err) ← call (GetRole dn rn);
  match err with
  | Some (ResourceError Code Message) =>
      if Code =? 404 then
        roleMembers ←
          (let '(v, ok) := d_GetOk RoleSchema d "members" in
           if ok then
             xs ← as_set v;
             mret (if bool_decide (0 < Len xs)%nat then expandRoleMembers (List xs) else [])
           else mret ([] : list RoleMember));
        auditRef ← as_string (d_Get RoleSchema d "audit_ref");
        tags ←
          (let '(v, ok) := d_GetOk RoleSchema d "tags" in
           if ok then expandRoleTags <$> as_map v
           else mret (∅ : gmap string (list string)));
        let role := mkRole fullResourceName None [] roleMembers "" tags in
        err ← call (PutRole dn rn auditRef role);
        match err with
        | Some _ => mret (d, err)
        | None => finish
        end
      else finish
  | Some _ => mret (d, err)
  | None =>
      match roleCheck with
      | Some _ =>
          mret (d, Some (errorString
                  ("the role " +:+ rn +:+ " is already exists in the domain " +:+ dn
                   +:+ " use terraform import command")))
      | None => mret (d, err)
      end
  end.

(** Lines 149-157 of [resourceRoleUpdate]: the membership block; its result
    is the error the block returns with, if any. *)
Definition convergeMembers (d : ResourceData) (dn rn auditRef : string)
  : prog (option error) :=
  if d_HasChange RoleSchema d "members" then
    '(os, ns) ← handleChange RoleSchema d "members";
    let remove := expandRoleMembers (List (Difference os ns)) in
    let add := expandRoleMembers (List (Difference ns os)) in
    err ← updateRoleMembers dn rn remove add auditRef;
    match err with
    | Some e => mret (Some (errorString ("error updating group membership: " +:+ Error e)))
    | None => mret None
    end
  else mret None.

(** Lines 158-170 of [resourceRoleUpdate]: the tags block. *)
Definition convergeTags (d : ResourceData) (dn rn auditRef : string)
  : prog (option error) :=
  if d_HasChange RoleSchema d "tags" then
    '(role, err) ← call (GetRole dn rn);
    match err with
    | Some _ => mret err
    | None =>
        let '(_, n) := d_GetChange RoleSchema d "tags" in
        tags ← expandRoleTags <$> as_map n;
        match role with
        | None => Panic "runtime error: invalid memory address or nil pointer dereference"
        | Some role =>
            let role := set_Tags role tags in
            err ← call (PutRole dn rn auditRef role);
            match err with
            | Some e => mret (Some (errorString ("error updating tags: " +:+ Error e)))
            | None => mret None
            end
        end
    end
  else mret None.

Definition resourceRoleUpdate (d : ResourceData) : prog (ResourceData * option error) :=
  '(dn, rn) ← splitResourceName (d_Id d);
  auditRef ← as_string (d_Get RoleSchema d "audit_ref");
  err ← convergeMembers d dn rn auditRef;
  match err with
  | Some _ => mret (d, err)
  | None =>
      err ← convergeTags d dn rn auditRef;
      match err with
      | Some _ => mret (d, err)
      | None => resourceRoleRead d
      end
  end.

Definition resourceRoleDelete (d : ResourceData) : prog (ResourceData * option error) :=
  '(dn, rn) ← splitResourceName (d_Id d);
  auditRef ← as_string (d_Get RoleSchema d "audit_ref");
  err ← call (DeleteRole dn rn auditRef);
  match err with
  | Some _ => mret (d, err)
  | None => mret (d, None)
  end.

(** ** resource_top_level_domain.go *)

(** The [Schema] of [ResourceTopLevelDomain()]. *)
Definition TopLevelDomainSchema : Schema := λ key,
  if String.eqb key "name" then Some TypeString
  else if String.eqb key "audit_ref" then Some TypeString
  else if String.eqb key "admin_users" then Some TypeSet
  else if String.eqb key "ypm_id" then Some TypeInt
  else None.

Definition resourceTopLevelDomainRead (d : ResourceData)
  : prog (ResourceData * option error) :=
  let domainName := d_Id d in
  '(topLevelDomain, err) ← call (GetDomain domainName);
  match err with
  | Some (ResourceError Code Message as v) =>
      if Code =? 404 then
        mret (d_SetId d "", None)
      else
        mret (d, Some (errorString
                ("error retrieving Athenz Top level Domain: " +:+ Error v)))
  | Some _ => mret (d, err)
  | None =>
  match topLevelDomain with
  | None =>
      mret (d, Some (errorString
              "error retrieving Athenz Top Level Domain - Make sure your cert/key are valid"))
  | Some topLevelDomain =>
  let '(d, err) := d_Set TopLevelDomainSchema d "name" (VString domainName) in
  match err with
  | Some _ => mret (d, err)
  | None =>
  '(adminRole, err) ← call (GetRole domainName "admin");
  match err with
  | Some _ => mret (d, err)
  | None =>
  match adminRole with
  | None => Panic "runtime error: invalid memory address or nil pointer dereference"
  | Some adminRole =>
  let adminUsers := flattenRoleMembers (RoleMembers adminRole) in
  let '(d, err) := d_Set TopLevelDomainSchema d "admin_users" (VList adminUsers) in
  match err with
  | Some _ => mret (d, err)
  | None =>
  match dom_YpmId topLevelDomain with
  | None => Panic "runtime error: invalid memory address or nil pointer dereference"
  | Some ypmId =>
  let '(d, err) := d_Set TopLevelDomainSchema d "ypm_id" (VInt ypmId) in
  match err with
  | Some _ => mret (d, err)
  | None => mret (d, None)
  end end end end end end end end.

Definition resourceTopLevelDomainCreate (d : ResourceData)
  : prog (ResourceData * option error) :=
  domainName ← as_string (d_Get TopLevelDomainSchema d "name");
  auditRef ← as_string (d_Get TopLevelDomainSchema d "audit_ref");
  adminUsers ← List <$> as_set (d_Get TopLevelDomainSchema d "admin_users");
  ypmId ← int32 <$> as_int (d_Get TopLevelDomainSchema d "ypm_id");
  let topLevelDomainDetail :=
    mkTopLevelDomain domainName (convertToZmsResourceNameList adminUsers) (Some ypmId) in
  '(topLevelDomain, err) ← call (PostTopLevelDomain auditRef topLevelDomainDetail);
  match err with
  | Some _ => mret (d, err)
  | None =>
      match topLevelDomain with
      | None =>
          mret (d, Some (errorString ("error creating Top Level Domain: " +:+ fmt_s err)))
      | Some _ => resourceTopLevelDomainRead (d_SetId d domainName)
      end
  end.

Definition resourceTopLevelDomainDelete (d : ResourceData)
  : prog (ResourceData * option error) :=
  let domainName := d_Id d in
  auditRef ← as_string (d_Get TopLevelDomainSchema d "audit_ref");
  err ← call (DeleteTopLevelDomain domainName auditRef);
  match err with
  | Some _ => mret (d, err)
  | None => mret (d, None)
  end.

(** ** Kinds of calls, sample clients and sample resource data *)

(** Calls that add or remove one member, and whole-role writes. *)
Definition is_membership_call (c : ZmsCall) : bool :=
  match c with
  | PutMembership _ _ _ _ | DeleteMembership _ _ _ _ => true
  | _ => false
  end.

Definition is_PutRole (c : ZmsCall) : bool :=
  match c with
  | PutRole _ _ _ _ => true
  | _ => false
  end.

(** The (domain, role) a role call addresses. *)
Definition target (c : ZmsCall) : option (string * string) :=
  match c with
  | GetRole dn rn | PutRole dn rn _ _ | DeleteRole dn rn _
  | PutMembership dn rn _ _ | DeleteMembership dn rn _ _ => Some (dn, rn)
  | _ => None
  end.

Definition remove_member (member : string) (role : Role) : Role :=
  mkRole (Name role) (Modified role) (Members role)
         (filter (λ m, MemberName m ≠ member) (RoleMembers role))
         (Trust role) (Tags role).

Definition add_member (member : RoleMember) (role : Role) : Role :=
  mkRole (Name role) (Modified role) (Members role)
         (RoleMembers (remove_member (MemberName member) role) ++ [member])
         (Trust role) (Tags role).

(** A well-behaved service that keeps the roles in memory, by identifier;
    it has no domains. *)
Definition memory_zms : ZmsClient (gmap string Role) := λ c roles,
  match c return Response c * gmap string Role with
  | GetRole dn rn =>
      match roles !! fullResourceName dn rn with
      | Some role => ((Some role, None), roles)
      | None => ((None, Some (ResourceError 404 "not found")), roles)
      end
  | PutRole dn rn _ role => (None, <[fullResourceName dn rn := role]> roles)
  | DeleteRole dn rn _ => (None, delete (fullResourceName dn rn) roles)
  | PutMembership dn rn member _ =>
      (None, alter (add_member member) (fullResourceName dn rn) roles)
  | DeleteMembership dn rn member _ =>
      (None, alter (remove_member member) (fullResourceName dn rn) roles)
  | GetDomain _ => ((None, Some (ResourceError 404 "not found")), roles)
  | PostTopLevelDomain _ detail => ((Some detail, None), roles)
  | DeleteTopLevelDomain _ _ => (None, roles)
  end.

(** A service that answers every role fetch with 403. *)
Definition forbidden_zms : ZmsClient unit := λ c s,
  match c return Response c * unit with
  | GetRole _ _ => ((None, Some (ResourceError 403 "forbidden")), s)
  | GetDomain _ => ((None, Some (ResourceError 403 "forbidden")), s)
  | PostTopLevelDomain _ _ => ((None, Some (ResourceError 403 "forbidden")), s)
  | _ => (Some (ResourceError 403 "forbidden"), s)
  end.

(** A service whose create-domain call comes back with neither a domain nor
    an error. *)
Definition silent_zms : ZmsClient unit := λ c s,
  match c return Response c * unit with
  | GetRole _ _ => ((None, Some (ResourceError 404 "not found")), s)
  | GetDomain _ => ((None, Some (ResourceError 404 "not found")), s)
  | PostTopLevelDomain _ _ => ((None, None), s)
  | _ => (None, s)
  end.

Definition readers : Role :=
  mkRole "sports:role.readers" (Some 1) []
         [mkRoleMember "user.alice" None; mkRoleMember "user.bob" (Some 99)]
         "" {["env" := ["prod"]]}.

(** A service whose first role fetch fails with 500 and which serves the
    role [readers] afterwards; the state counts the fetches. *)
Definition flaky_zms : ZmsClient nat := λ c n,
  match c return Response c * nat with
  | GetRole _ _ =>
      match n with
      | O => ((None, Some (ResourceError 500 "internal error")), S n)
      | S _ => ((Some readers, None), S n)
      end
  | GetDomain _ => ((None, Some (ResourceError 404 "not found")), n)
  | PostTopLevelDomain _ _ => ((None, None), n)
  | _ => (None, n)
  end.

(** The planned values of a new role [readers] in domain [sports]. *)
Definition new_readers : ResourceData :=
  mkResourceData "" ∅
    (<["domain" := VString "sports"]>
       (<["name" := VString "readers"]>
          (<["members" := VSet {["user.bob"; "user.carol"]}]>
             (<["tags" := VMap {["env" := "staging"]}]>
                (<["audit_ref" := VString "done by terraform"]> ∅)))))
    ∅.

(** The stored role [readers] with a change of members and tags. *)
Definition changed_readers : ResourceData :=
  mkResourceData "sports:role.readers"
    (<["domain" := VString "sports"]>
       (<["name" := VString "readers"]>
          (<["members" := VSet {["user.alice"; "user.bob"]}]>
             (<["tags" := VMap {["env" := "prod"]}]>
                (<["audit_ref" := VString "done by terraform"]> ∅)))))
    (<["domain" := VString "sports"]>
       (<["name" := VString "readers"]>
          (<["members" := VSet {["user.bob"; "user.carol"]}]>
             (<["tags" := VMap (<["env" := "staging"]> {["owner" := "team-x"]})]>
                (<["audit_ref" := VString "done by terraform"]> ∅)))))
    ∅.

(** The planned values of a new top-level domain [sports]. *)
Definition new_sports : ResourceData :=
  mkResourceData "" ∅
    (<["name" := VString "sports"]>
       (<["admin_users" := VSet {["user.dana"]}]>
          (<["ypm_id" := VInt 4711]>
             (<["audit_ref" := VString "done by terraform"]> ∅))))
    ∅.

(** A stored resource with the given identifier and audit reference. *)
Definition stored (id : string) : ResourceData :=
  mkResourceData id
    (<["audit_ref" := VString "done by terraform"]> ∅)
    (<["audit_ref" := VString "done by terraform"]> ∅) ∅.

(** ** More kinds of calls, sample clients and sample data *)

(** Calls that only read the remote state. *)
Definition is_fetch (c : ZmsCall) : bool :=
  match c with
  | GetRole _ _ | GetDomain _ => true
  | _ => false
  end.

(** The error a response carries, whatever the call. *)
Definition response_error (c : ZmsCall) : Response c → option error :=
  match c return Response c → option error with
  | GetRole _ _ => snd
  | GetDomain _ => snd
  | PostTopLevelDomain _ _ => snd
  | _ => λ e, e
  end.

(** A service that gives the same answer to every call of a kind: [role] to
    a role fetch, [domain] to a domain fetch, [created] to a create-domain
    call, [put] to a whole-role write and [other] to every other call. *)
Definition fixed_zms (role : option Role * option error)
    (domain : option Domain * option error)
    (created : option TopLevelDomain * option error)
    (put other : option error) : ZmsClient unit := λ c s,
  match c return Response c * unit with
  | GetRole _ _ => (role, s)
  | GetDomain _ => (domain, s)
  | PostTopLevelDomain _ _ => (created, s)
  | PutRole _ _ _ _ => (put, s)
  | _ => (other, s)
  end.

Definition not_found : option error := Some (ResourceError 404 "not found").
Definition forbidden : option error := Some (ResourceError 403 "forbidden").
Definition refused : option error := Some (errorString "connection refused").

(** The admin role and the domain value of the domain [sports]. *)
Definition sports_admin : Role :=
  mkRole "sports:role.admin" None [] [mkRoleMember "user.dana" None] "" ∅.

Definition sports : Domain := mkDomain "sports" (Some 4711).

(** The stored role [readers] with a change of tags only. *)
Definition retagged_readers : ResourceData :=
  mkResourceData "sports:role.readers"
    (<["members" := VSet {["user.alice"; "user.bob"]}]>
       (<["tags" := VMap {["env" := "prod"]}]>
          (<["audit_ref" := VString "done by terraform"]> ∅)))
    (<["members" := VSet {["user.alice"; "user.bob"]}]>
       (<["tags" := VMap {["env" := "staging"]}]>
          (<["audit_ref" := VString "done by terraform"]> ∅)))
    ∅.

(** * Properties *)

(** ** Splitting at the role separator *)

Section split_lemmas.
Import go_strings.

Lemma app_nil (s : string) : "" +:+ s = s.
Proof. reflexivity. Qed.

Lemma app_cons c (s t : string) : String c s +:+ t = String c (s +:+ t).
Proof. reflexivity. Qed.

Lemma HasPrefix_app (p s : string) : HasPrefix (p +:+ s) p = true.
Proof.
  induction p as [|c p IH]; [done|].
  rewrite app_cons. simpl. by rewrite Ascii.eqb_refl, IH.
Qed.

Lemma slice_to_app (s t : string) : slice_to (String.length s) (s +:+ t) = s.
Proof.
  induction s as [|c s IH]; [rewrite app_nil | rewrite app_cons]; simpl.
  - by destruct t.
  - by rewrite IH.
Qed.

Lemma slice_from_app (s t : string) : slice_from (String.length s) (s +:+ t) = t.
Proof.
  induction s as [|c s IH]; [rewrite app_nil | rewrite app_cons]; simpl;
    [by destruct t | done].
Qed.

Lemma string_app_assoc (s t u : string) : (s +:+ t) +:+ u = s +:+ (t +:+ u).
Proof. induction s as [|c s IH]; [done | by rewrite !app_cons, IH]. Qed.

Lemma string_app_length (s t : string) :
  String.length (s +:+ t) = (String.length s + String.length t)%nat.
Proof.
  induction s as [|c s IH]; [done|]. rewrite app_cons. simpl. by rewrite IH.
Qed.

Lemma Index_None_cons c s sep :
  Index (String c s) sep = None →
  HasPrefix (String c s) sep = false ∧ Index s sep = None.
Proof.
  cbn [Index]. destruct (HasPrefix (String c s) sep); [done|].
  destruct (Index s sep); [done | by split].
Qed.

(** A cut is always inside the string. *)
Lemma HasPrefix_length s p :
  HasPrefix s p = true → (String.length p ≤ String.length s)%nat.
Proof.
  revert s; induction p as [|c p IH]; intros [|c' s]; simpl; try done; try lia.
  intros [_ H]%andb_true_iff. apply IH in H. lia.
Qed.

Lemma Index_bound s sep m :
  Index s sep = Some m → (m + String.length sep ≤ String.length s)%nat.
Proof.
  revert m; induction s as [|c s IH]; intros m; cbn [Index].
  - destruct (HasPrefix "" sep) eqn:E; [|done].
    intros [= <-]. by apply HasPrefix_length in E.
  - destruct (HasPrefix (String c s) sep) eqn:E.
    + intros [= <-]. by apply HasPrefix_length in E.
    + destruct (Index s sep) as [k|]; [|done].
      intros [= <-]. specialize (IH k eq_refl). simpl. lia.
Qed.

Lemma slice_from_length n s :
  String.length (slice_from n s) = (String.length s - n)%nat.
Proof.
  revert s; induction n as [|n IH]; intros [|c s]; simpl; done.
Qed.

(** The loop of [genSplit] stops by itself: any bound from [len(s)] on
    gives the same components. *)
Lemma genSplit_fuel sep n k s :
  (0 < String.length sep)%nat → (String.length s ≤ n)%nat → (String.length s ≤ k)%nat →
  genSplit n s sep = genSplit k s sep.
Proof.
  intros Hsep. revert k s; induction n as [|n IH]; intros k s Hn Hk.
  - destruct s; [|simpl in Hn; lia].
    destruct k; cbn [genSplit]; [done|].
    destruct (Index "" sep) as [m|] eqn:E; [|done].
    apply Index_bound in E. simpl in E. lia.
  - destruct k as [|k].
    + destruct s; [|simpl in Hk; lia].
      cbn [genSplit]. destruct (Index "" sep) as [m|] eqn:E; [|done].
      apply Index_bound in E. simpl in E. lia.
    + cbn [genSplit]. destruct (Index s sep) as [m|] eqn:E; [|done].
      f_equal. pose proof (Index_bound _ _ _ E).
      apply IH; rewrite slice_from_length; lia.
Qed.

(** The separator starts with its only colon, so an instance of it cannot
    begin inside a string that is followed by the separator unless it lies
    within that string. *)
Lemma HasPrefix_straddle (t rest : string) :
  t ≠ "" →
  HasPrefix (t +:+ ROLE_SEPARATOR +:+ rest) ROLE_SEPARATOR = true →
  HasPrefix t ROLE_SEPARATOR = true.
Proof.
  intros Ht.
  destruct t as [|c1 [|c2 [|c3 [|c4 [|c5 [|c6 t]]]]]]; [done|..];
    unfold ROLE_SEPARATOR; rewrite ?app_cons, ?app_nil; cbn;
    repeat (match goal with
            | |- context [Ascii.eqb ?a ?b] => destruct (Ascii.eqb a b); cbn
            end); try done.
Qed.

Lemma Index_join (dn rn : string) :
  Index dn ROLE_SEPARATOR = None →
  Index (dn +:+ ROLE_SEPARATOR +:+ rn) ROLE_SEPARATOR = Some (String.length dn).
Proof.
  induction dn as [|c dn IH]; intros Hdn.
  - rewrite app_nil.
    unfold Index. destruct (ROLE_SEPARATOR +:+ rn) eqn:E; [done|].
    rewrite <- E, HasPrefix_app. by destruct rn.
  - apply Index_None_cons in Hdn as [Hp Hi].
    rewrite app_cons. cbn [Index].
    destruct (HasPrefix (String c (dn +:+ ROLE_SEPARATOR +:+ rn)) ROLE_SEPARATOR) eqn:E.
    + rewrite <- app_cons in E.
      apply (HasPrefix_straddle (String c dn) rn) in E; [congruence | done].
    + rewrite (IH Hi). done.
Qed.

(** Splitting the identifier of [dn] and [rn] gives the two names back,
    when neither contains the separator. *)
Lemma Split_join (dn rn : string) :
  Index dn ROLE_SEPARATOR = None →
  Index rn ROLE_SEPARATOR = None →
  Split (dn +:+ ROLE_SEPARATOR +:+ rn) ROLE_SEPARATOR = [dn; rn].
Proof.
  intros Hdn Hrn. unfold Split.
  change (match ROLE_SEPARATOR with "" => _ | _ => ?x end) with x.
  assert (∃ n, String.length (dn +:+ ROLE_SEPARATOR +:+ rn) = S (S n)) as [n ->].
  { exists (String.length dn + 4 + String.length rn)%nat.
    rewrite !string_app_length. simpl. lia. }
  cbn [genSplit]. rewrite (Index_join dn rn Hdn).
  rewrite slice_to_app.
  rewrite <- (string_app_length dn ROLE_SEPARATOR).
  rewrite <- string_app_assoc, slice_from_app.
  by rewrite Hrn.
Qed.

End split_lemmas.

(** ** Running callbacks *)

Section run_lemmas.
Context {σ : Type} (zms : ZmsClient σ).

Lemma run_bind {A B : Type} (p : prog A) (f : A → prog B) (s : σ) :
  run zms (p ≫= f) s =
    match run zms p s with
    | (Returned a, s1, t1) =>
        let '(o, s2, t2) := run zms (f a) s1 in (o, s2, t1 ++ t2)
    | (Panicked msg, s1, t1) => (Panicked msg, s1, t1)
    end.
Proof.
  revert s. induction p as [a|msg|c k IH]; intros s.
  - change (Ret a ≫= f) with (f a). simpl.
    by destruct (run zms (f a) s) as [[o s2] t2].
  - done.
  - change (Call c k ≫= f) with (Call c (λ r, k r ≫= f)). simpl.
    destruct (zms c s) as [r s1]. rewrite IH.
    destruct (run zms (k r) s1) as [[[a|msg] s2] t1]; [|done].
    by destruct (run zms (f a) s2) as [[o s3] t2].
Qed.

Lemma run_call {A : Type} (c : ZmsCall) (f : Response c → prog A) (s : σ) :
  run zms (call c ≫= f) s =
    let '(r, s1) := zms c s in
    let '(o, s2, t) := run zms (f r) s1 in (o, s2, c :: t).
Proof. reflexivity. Qed.

Lemma run_ret_bind {A B : Type} (a : A) (f : A → prog B) (s : σ) :
  run zms (mret a ≫= f) s = run zms (f a) s.
Proof. reflexivity. Qed.

End run_lemmas.

(** One step of a run: the next client call. *)
Ltac run_step :=
  cbn [run bind mbind prog_bind call mret prog_ret fmap prog_fmap
       as_string as_int as_set as_map].

(** The two outcomes of decoding a stored role identifier. *)
Lemma splitResourceName_cons (id dn rn : string) (rest : list string) :
  go_strings.Split id ROLE_SEPARATOR = dn :: rn :: rest →
  splitResourceName id = Ret (dn, rn).
Proof. unfold splitResourceName. by intros ->. Qed.

Lemma splitResourceName_short (id : string) :
  (length (go_strings.Split id ROLE_SEPARATOR) < 2)%nat →
  splitResourceName id = Panic "runtime error: index out of range".
Proof.
  unfold splitResourceName.
  destruct (go_strings.Split id ROLE_SEPARATOR) as [|dn [|rn rest]]; simpl; [done..|lia].
Qed.

(** Storing the two names of a role never fails. *)
Lemma d_Set_domain (d : ResourceData) (dn : string) :
  d_Set RoleSchema d "domain" (VString dn) =
    (mkResourceData (d_Id d) (prior d) (planned d) (<["domain" := VString dn]> (written d)),
     None).
Proof. reflexivity. Qed.

Lemma d_Set_name (d : ResourceData) (rn : string) :
  d_Set RoleSchema d "name" (VString rn) =
    (mkResourceData (d_Id d) (prior d) (planned d) (<["name" := VString rn]> (written d)),
     None).
Proof. reflexivity. Qed.

(** ** Read of an entity that is gone *)

Lemma resourceRoleRead_not_found {σ : Type} (zms : ZmsClient σ) (s s' : σ)
    (d : ResourceData) (dn rn : string) (rest : list string)
    (r : option Role) (msg : string) :
  go_strings.Split (d_Id d) ROLE_SEPARATOR = dn :: rn :: rest →
  zms (GetRole dn rn) s = ((r, Some (ResourceError 404 msg)), s') →
  ∃ d', run zms (resourceRoleRead d) s = (Returned (d', None), s', [GetRole dn rn])
        ∧ d_Id d' = "".
Proof.
  intros Hid Hget. unfold resourceRoleRead.
  rewrite (splitResourceName_cons _ _ _ _ Hid), run_ret_bind.
  rewrite d_Set_domain; cbn beta iota. rewrite d_Set_name; cbn beta iota.
  run_step. rewrite Hget. cbn.
  eexists. split; reflexivity.
Qed.

Lemma resourceTopLevelDomainRead_not_found {σ : Type} (zms : ZmsClient σ) (s s' : σ)
    (d : ResourceData) (r : option Domain) (msg : string) :
  zms (GetDomain (d_Id d)) s = ((r, Some (ResourceError 404 msg)), s') →
  run zms (resourceTopLevelDomainRead d) s =
    (Returned (d_SetId d "", None), s', [GetDomain (d_Id d)]).
Proof.
  intros Hget. unfold resourceTopLevelDomainRead.
  run_step. by rewrite Hget.
Qed.

(** C2: a Role Read and a Top-Level Domain Read whose fetch fails with a
    structured 404 error clear the stored identifier and return no error;
    the fetch is the only call they make. *)
Theorem read_not_found_absorbed :
  (∀ (σ : Type) (zms : ZmsClient σ) (s s' : σ) (d : ResourceData) (dn rn : string)
     (rest : list string) (r : option Role) (msg : string),
      go_strings.Split (d_Id d) ROLE_SEPARATOR = dn :: rn :: rest →
      zms (GetRole dn rn) s = ((r, Some (ResourceError 404 msg)), s') →
      ∃ d', run zms (resourceRoleRead d) s = (Returned (d', None), s', [GetRole dn rn])
            ∧ d_Id d' = "")
  ∧
  (∀ (σ : Type) (zms : ZmsClient σ) (s s' : σ) (d : ResourceData)
     (r : option Domain) (msg : string),
      zms (GetDomain (d_Id d)) s = ((r, Some (ResourceError 404 msg)), s') →
      ∃ d', run zms (resourceTopLevelDomainRead d) s =
              (Returned (d', None), s', [GetDomain (d_Id d)])
            ∧ d_Id d' = "").
Proof.
  split.
  - intros. by eapply resourceRoleRead_not_found.
  - intros σ zms s s' d r msg Hget. exists (d_SetId d ""). split; [|done].
    by eapply resourceTopLevelDomainRead_not_found.
Qed.

Lemma read_not_found_absorbed_witness :
  (∃ d', run memory_zms (resourceRoleRead (stored "sports:role.readers")) ∅ =
           (Returned (d', None), ∅, [GetRole "sports" "readers"]) ∧ d_Id d' = "")
  ∧
  (∃ d', run memory_zms (resourceTopLevelDomainRead (stored "sports")) ∅ =
           (Returned (d', None), ∅, [GetDomain "sports"]) ∧ d_Id d' = "").
Proof.
  split.
  - apply (proj1 read_not_found_absorbed _ memory_zms ∅ ∅ (stored "sports:role.readers")
             "sports" "readers" [] None "not found"); reflexivity.
  - apply (proj2 read_not_found_absorbed _ memory_zms ∅ ∅ (stored "sports")
             None "not found"); reflexivity.
Defined.

(** ** Create of a role: the precheck *)

(** C3: when the precheck finds the role, Create returns the "already
    exists, use terraform import" error; the precheck is the only call it
    makes (no [PutRole]) and the resource data, identifier included, is left
    as it was. *)
Theorem create_rejects_existing {σ : Type} (zms : ZmsClient σ) (s s' : σ)
    (d : ResourceData) (dn rn : string) (role : Role) :
  d_Get RoleSchema d "domain" = VString dn →
  d_Get RoleSchema d "name" = VString rn →
  zms (GetRole dn rn) s = ((Some role, None), s') →
  run zms (resourceRoleCreate d) s =
    (Returned (d, Some (errorString
                 ("the role " +:+ rn +:+ " is already exists in the domain " +:+ dn
                  +:+ " use terraform import command"))),
     s', [GetRole dn rn]).
Proof.
  intros Hdn Hrn Hget. unfold resourceRoleCreate.
  rewrite Hdn, Hrn. run_step. by rewrite Hget.
Qed.

Lemma create_rejects_existing_witness :
  run memory_zms (resourceRoleCreate new_readers) {["sports:role.readers" := readers]} =
    (Returned (new_readers,
               Some (errorString
                 "the role readers is already exists in the domain sports use terraform import command")),
     {["sports:role.readers" := readers]}, [GetRole "sports" "readers"]).
Proof.
  apply (create_rejects_existing memory_zms _ _ new_readers "sports" "readers" readers);
    reflexivity.
Defined.

(** An unstructured precheck failure makes Create return it at once. *)
Lemma create_precheck_unstructured {σ : Type} (zms : ZmsClient σ) (s s' : σ)
    (d : ResourceData) (dn rn : string) (r : option Role) (msg : string) :
  d_Get RoleSchema d "domain" = VString dn →
  d_Get RoleSchema d "name" = VString rn →
  zms (GetRole dn rn) s = ((r, Some (errorString msg)), s') →
  run zms (resourceRoleCreate d) s =
    (Returned (d, Some (errorString msg)), s', [GetRole dn rn]).
Proof.
  intros Hdn Hrn Hget. unfold resourceRoleCreate.
  rewrite Hdn, Hrn. run_step. by rewrite Hget.
Qed.

(** A structured precheck failure other than 404 leaves the [switch]
    without returning: Create stores the identifier and goes on to Read. *)
Lemma create_falls_through_on_structured_other {σ : Type} (zms : ZmsClient σ) (s s' : σ)
    (d : ResourceData) (dn rn : string) (r : option Role) (code : Z) (msg : string) :
  d_Get RoleSchema d "domain" = VString dn →
  d_Get RoleSchema d "name" = VString rn →
  code ≠ 404 →
  zms (GetRole dn rn) s = ((r, Some (ResourceError code msg)), s') →
  run zms (resourceRoleCreate d) s =
    let '(o, s2, t) :=
      run zms (resourceRoleRead (d_SetId d (fullResourceName dn rn))) s' in
    (o, s2, GetRole dn rn :: t).
Proof.
  intros Hdn Hrn Hcode Hget. unfold resourceRoleCreate.
  rewrite Hdn, Hrn. run_step. rewrite Hget.
  by destruct (Z.eqb_spec code 404).
Qed.

(** C4, at two inputs where the precheck fails with a structured error that
    is not 404.  Against a service that answers 403, Create stores the
    identifier and returns the error of the Read that follows, not the
    precheck's.  Against a service that answers 500 once and then serves the
    role, Create stores the identifier and returns no error at all. *)
Theorem create_precheck_structured_other_goes_on :
  (∃ d', run forbidden_zms (resourceRoleCreate new_readers) () =
           (Returned (d', Some (errorString
                        "error retrieving Athenz Role sports:role.readers: 403 forbidden")),
            (), [GetRole "sports" "readers"; GetRole "sports" "readers"])
         ∧ d_Id d' = "sports:role.readers")
  ∧
  (∃ d', run flaky_zms (resourceRoleCreate new_readers) 0%nat =
           (Returned (d', None), 2%nat,
            [GetRole "sports" "readers"; GetRole "sports" "readers"])
         ∧ d_Id d' = "sports:role.readers").
Proof.
  split; eexists; (split; [vm_compute; reflexivity | reflexivity]).
Qed.

(** ** Create of a top-level domain *)

(** C8: when the create-domain call returns neither a domain nor an error,
    Create returns an error; the resource data, identifier included, is left
    as it was. *)
Theorem create_domain_ambiguous {σ : Type} (zms : ZmsClient σ) (s s' : σ)
    (d : ResourceData) (name a : string) (admins : gset string) (ypm : Z) :
  d_Get TopLevelDomainSchema d "name" = VString name →
  d_Get TopLevelDomainSchema d "audit_ref" = VString a →
  d_Get TopLevelDomainSchema d "admin_users" = VSet admins →
  d_Get TopLevelDomainSchema d "ypm_id" = VInt ypm →
  zms (PostTopLevelDomain a
         (mkTopLevelDomain name (convertToZmsResourceNameList (List admins))
                           (Some (int32 ypm)))) s = ((None, None), s') →
  run zms (resourceTopLevelDomainCreate d) s =
    (Returned (d, Some (errorString "error creating Top Level Domain: %!s(<nil>)")),
     s',
     [PostTopLevelDomain a
        (mkTopLevelDomain name (convertToZmsResourceNameList (List admins))
                          (Some (int32 ypm)))]).
Proof.
  intros Hname Ha Hadmins Hypm Hpost. unfold resourceTopLevelDomainCreate.
  rewrite Hname, Ha, Hadmins, Hypm. run_step. by rewrite Hpost.
Qed.

Lemma create_domain_ambiguous_witness :
  run silent_zms (resourceTopLevelDomainCreate new_sports) () =
    (Returned (new_sports,
               Some (errorString "error creating Top Level Domain: %!s(<nil>)")),
     (),
     [PostTopLevelDomain "done by terraform"
        (mkTopLevelDomain "sports"
           (convertToZmsResourceNameList (List {["user.dana"]})) (Some (int32 4711)))]).
Proof.
  apply (create_domain_ambiguous silent_zms () () new_sports "sports"
           "done by terraform" {["user.dana"]} 4711); reflexivity.
Defined.

(** ** What Read, Delete and the update blocks send *)

Lemma d_Set_members (d : ResourceData) (l : list string) :
  d_Set RoleSchema d "members" (VList l) =
    (mkResourceData (d_Id d) (prior d) (planned d)
       (<["members" := VSet (list_to_set l)]> (written d)), None).
Proof. reflexivity. Qed.

Lemma d_Set_tags (d : ResourceData) (m : gmap string string) :
  d_Set RoleSchema d "tags" (VMap m) =
    (mkResourceData (d_Id d) (prior d) (planned d) (<["tags" := VMap m]> (written d)),
     None).
Proof. reflexivity. Qed.

(** Read makes one call: the fetch of the role the identifier decodes to. *)
Lemma resourceRoleRead_trace {σ : Type} (zms : ZmsClient σ) (s : σ)
    (d : ResourceData) (dn rn : string) (rest : list string) :
  go_strings.Split (d_Id d) ROLE_SEPARATOR = dn :: rn :: rest →
  trace (run zms (resourceRoleRead d) s) = [GetRole dn rn].
Proof.
  intros Hid. unfold resourceRoleRead.
  rewrite (splitResourceName_cons _ _ _ _ Hid), run_ret_bind.
  rewrite d_Set_domain; cbn beta iota. rewrite d_Set_name; cbn beta iota.
  run_step. destruct (zms (GetRole dn rn) s) as [[role err] s1].
  destruct err as [[code msg|msg]|]; [by destruct (code =? 404) | done |].
  destruct role as [role|]; [|done].
  destruct (bool_decide (0 < length (RoleMembers role))%nat);
    rewrite ?d_Set_members; cbn beta iota;
    destruct (bool_decide (0 < size (Tags role))%nat);
    rewrite ?d_Set_tags; done.
Qed.

(** A successful Read leaves the identifier alone and stores the two names
    it decoded. *)
Lemma resourceRoleRead_found {σ : Type} (zms : ZmsClient σ) (s s' : σ)
    (d : ResourceData) (dn rn : string) (rest : list string) (role : Role) :
  go_strings.Split (d_Id d) ROLE_SEPARATOR = dn :: rn :: rest →
  zms (GetRole dn rn) s = ((Some role, None), s') →
  ∃ d', run zms (resourceRoleRead d) s = (Returned (d', None), s', [GetRole dn rn])
        ∧ d_Id d' = d_Id d
        ∧ d_Get RoleSchema d' "domain" = VString dn
        ∧ d_Get RoleSchema d' "name" = VString rn.
Proof.
  intros Hid Hget. unfold resourceRoleRead.
  rewrite (splitResourceName_cons _ _ _ _ Hid), run_ret_bind.
  rewrite d_Set_domain; cbn beta iota. rewrite d_Set_name; cbn beta iota.
  run_step. rewrite Hget.
  destruct (bool_decide (0 < length (RoleMembers role))%nat);
    rewrite ?d_Set_members; cbn beta iota;
    destruct (bool_decide (0 < size (Tags role))%nat);
    rewrite ?d_Set_tags; cbn beta iota;
    (eexists; split; [reflexivity|]); (split; [done|]);
    unfold d_Get; cbn [written]; by simplify_map_eq.
Qed.

Lemma resourceRoleDelete_trace {σ : Type} (zms : ZmsClient σ) (s : σ)
    (d : ResourceData) (dn rn a : string) (rest : list string) :
  go_strings.Split (d_Id d) ROLE_SEPARATOR = dn :: rn :: rest →
  d_Get RoleSchema d "audit_ref" = VString a →
  trace (run zms (resourceRoleDelete d) s) = [DeleteRole dn rn a].
Proof.
  intros Hid Ha. unfold resourceRoleDelete.
  rewrite (splitResourceName_cons _ _ _ _ Hid), run_ret_bind, Ha.
  run_step. destruct (zms (DeleteRole dn rn a) s) as [[e|] s1]; done.
Qed.

Section members.
Context {σ : Type} (zms : ZmsClient σ) (dn rn a : string).

Lemma deleteMembers_run (remove : list RoleMember) (s : σ) :
  ∃ removed o s',
    run zms (deleteMembers dn rn remove a) s = (Returned o, s', (λ m, DeleteMembership dn rn (MemberName m) a) <$> removed)
    ∧ removed `prefix_of` remove
    ∧ (o = None → removed = remove).
Proof.
  revert s. induction remove as [|m remove IH]; intros s.
  - by exists [], None, s.
  - cbn [deleteMembers]. run_step.
    destruct (zms (DeleteMembership dn rn (MemberName m) a) s) as [[e|] s1].
    + exists [m], (Some e), s1. split; [done|].
      split; [by apply prefix_cons, prefix_nil | done].
    + destruct (IH s1) as (removed & o & s' & -> & Hpre & Hall).
      exists (m :: removed), o, s'. split; [done|].
      split; [by apply prefix_cons | by intros ->%Hall].
Qed.

Lemma putMembers_run (add : list RoleMember) (s : σ) :
  ∃ added o s',
    run zms (putMembers dn rn add a) s = (Returned o, s', (λ m, PutMembership dn rn m a) <$> added)
    ∧ added `prefix_of` add
    ∧ (o = None → added = add).
Proof.
  revert s. induction add as [|m add IH]; intros s.
  - by exists [], None, s.
  - cbn [putMembers]. run_step.
    destruct (zms (PutMembership dn rn m a) s) as [[e|] s1].
    + exists [m], (Some e), s1. split; [done|].
      split; [by apply prefix_cons, prefix_nil | done].
    + destruct (IH s1) as (added & o & s' & -> & Hpre & Hall).
      exists (m :: added), o, s'. split; [done|].
      split; [by apply prefix_cons | by intros ->%Hall].
Qed.

(** [updateRoleMembers] sends removals, then additions; an addition is
    sent only after every removal, and no error means every call was sent. *)
Lemma updateRoleMembers_run (remove add : list RoleMember) (s : σ) :
  ∃ removed added o s',
    run zms (updateRoleMembers dn rn remove add a) s =
      (Returned o, s', ((λ m, DeleteMembership dn rn (MemberName m) a) <$> removed) ++ ((λ m, PutMembership dn rn m a) <$> added))
    ∧ removed `prefix_of` remove
    ∧ added `prefix_of` add
    ∧ (added ≠ [] → removed = remove)
    ∧ (o = None → removed = remove ∧ added = add).
Proof.
  unfold updateRoleMembers. rewrite run_bind.
  destruct (deleteMembers_run remove s) as (removed & o & s1 & -> & Hpre & Hall).
  destruct o as [e|].
  - exists removed, [], (Some e), s1. run_step.
    split; [done|]. split; [done|]. split; [apply prefix_nil|]. by split.
  - destruct (putMembers_run add s1) as (added & o & s2 & -> & Hpre' & Hall').
    exists removed, added, o, s2.
    split; [done|]. split; [done|]. split; [done|].
    split; [intros _; by apply Hall | intros Ho; split; [by apply Hall | by apply Hall']].
Qed.

End members.

(** ** The membership block of Update *)

Lemma d_HasChange_GetChange (sch : Schema) (d : ResourceData) (key : string) (o n : value) :
  d_GetChange sch d key = (o, n) → d_HasChange sch d key = bool_decide (o ≠ n).
Proof. unfold d_HasChange. by intros ->. Qed.

Lemma flatten_expand (l : list string) : MemberName <$> expandRoleMembers l = l.
Proof.
  unfold expandRoleMembers. rewrite <- list_fmap_compose.
  induction l as [|x l IH]; [done | by rewrite fmap_cons, IH].
Qed.

Lemma Difference_self (xs : gset string) : List (Difference xs xs) = [].
Proof.
  unfold List, Difference.
  replace (xs ∖ xs) with (∅ : gset string); [apply elements_empty|].
  apply set_eq. intros x. rewrite elem_of_difference, elem_of_empty. tauto.
Qed.

Section update.
Context {σ : Type} (zms : ZmsClient σ).

(** The membership block with its before and after sets. *)
Lemma convergeMembers_run (d : ResourceData) (dn rn a : string) (O N : gset string)
    (s : σ) :
  d_GetChange RoleSchema d "members" = (VSet O, VSet N) →
  ∃ removed added o s',
    run zms (convergeMembers d dn rn a) s =
      (Returned o, s',
       ((λ m, DeleteMembership dn rn (MemberName m) a) <$> removed)
       ++ ((λ m, PutMembership dn rn m a) <$> added))
    ∧ removed `prefix_of` expandRoleMembers (List (Difference O N))
    ∧ added `prefix_of` expandRoleMembers (List (Difference N O))
    ∧ (added ≠ [] → removed = expandRoleMembers (List (Difference O N)))
    ∧ (o = None → removed = expandRoleMembers (List (Difference O N))
                  ∧ added = expandRoleMembers (List (Difference N O))).
Proof.
  intros Hchange. unfold convergeMembers, handleChange.
  rewrite (d_HasChange_GetChange _ _ _ _ _ Hchange), Hchange.
  case_bool_decide as Hne.
  - run_step. rewrite run_bind.
    destruct (updateRoleMembers_run zms dn rn a
                (expandRoleMembers (List (Difference O N)))
                (expandRoleMembers (List (Difference N O))) s)
      as (removed & added & o & s' & -> & Hr & Ha & Hord & Hall).
    destruct o as [e|]; run_step; rewrite app_nil_r.
    + by eexists removed, added, _, s'.
    + by exists removed, added, None, s'.
  - assert (O = N) as -> by (destruct (decide (O = N)); [done | congruence]).
    exists [], [], None, s. rewrite Difference_self.
    split; [done|]. split; [done|]. split; [done|]. by split.
Qed.

(** Whatever the resource data hold, the membership block sends only
    membership calls for the role it was given. *)
Lemma convergeMembers_calls (d : ResourceData) (dn rn a : string) (s : σ) :
  Forall (λ c, is_membership_call c = true ∧ target c = Some (dn, rn))
         (trace (run zms (convergeMembers d dn rn a) s)).
Proof.
  destruct (d_GetChange RoleSchema d "members") as [o n] eqn:Hchange.
  destruct o as [| |O| |]; try
    (unfold convergeMembers, handleChange; rewrite Hchange;
     destruct (d_HasChange RoleSchema d "members"); by apply Forall_nil).
  destruct n as [| |N| |]; try
    (unfold convergeMembers, handleChange; rewrite Hchange;
     destruct (d_HasChange RoleSchema d "members"); by apply Forall_nil).
  destruct (convergeMembers_run d dn rn a O N s Hchange)
    as (removed & added & o & s' & -> & _).
  apply Forall_app. split; apply Forall_fmap, Forall_true; by intros m.
Qed.

(** The tags block sends at most a fetch and a whole-role write. *)
Lemma convergeTags_calls (d : ResourceData) (dn rn a : string) (s : σ) :
  Forall (λ c, is_membership_call c = false ∧ target c = Some (dn, rn))
         (trace (run zms (convergeTags d dn rn a) s)).
Proof.
  unfold convergeTags. destruct (d_HasChange RoleSchema d "tags"); [|by apply Forall_nil].
  run_step. destruct (zms (GetRole dn rn) s) as [[role err] s1].
  destruct err as [e|]; [by repeat constructor|].
  destruct (d_GetChange RoleSchema d "tags") as [o n].
  destruct n as [| | | |m]; try by repeat constructor.
  run_step. destruct role as [role|]; [|by repeat constructor].
  run_step. destruct (zms (PutRole dn rn a (set_Tags role (expandRoleTags m))) s1)
    as [[e|] s2]; by repeat constructor.
Qed.

End update.

(** ** Update of a role *)

Section update_run.
Context {σ : Type} (zms : ZmsClient σ).

(** Update is its two blocks, then Read. *)
Lemma resourceRoleUpdate_run (d : ResourceData) (dn rn a : string)
    (rest : list string) (s : σ) :
  go_strings.Split (d_Id d) ROLE_SEPARATOR = dn :: rn :: rest →
  d_Get RoleSchema d "audit_ref" = VString a →
  run zms (resourceRoleUpdate d) s =
    match run zms (convergeMembers d dn rn a) s with
    | (Returned (Some e), s1, t1) => (Returned (d, Some e), s1, t1)
    | (Returned None, s1, t1) =>
        match run zms (convergeTags d dn rn a) s1 with
        | (Returned (Some e), s2, t2) => (Returned (d, Some e), s2, t1 ++ t2)
        | (Returned None, s2, t2) =>
            let '(o, s3, t3) := run zms (resourceRoleRead d) s2 in
            (o, s3, t1 ++ t2 ++ t3)
        | (Panicked msg, s2, t2) => (Panicked msg, s2, t1 ++ t2)
        end
    | (Panicked msg, s1, t1) => (Panicked msg, s1, t1)
    end.
Proof.
  intros Hid Ha. unfold resourceRoleUpdate.
  rewrite (splitResourceName_cons _ _ _ _ Hid), run_ret_bind, Ha.
  change (as_string (VString a)) with (mret a : prog string).
  rewrite run_ret_bind, run_bind.
  destruct (run zms (convergeMembers d dn rn a) s) as [[[[e|]|msg] s1] t1];
    [run_step; by rewrite app_nil_r | | done].
  rewrite run_bind.
  destruct (run zms (convergeTags d dn rn a) s1) as [[[[e|]|msg] s2] t2];
    [run_step; by rewrite app_nil_r | | done].
  by destruct (run zms (resourceRoleRead d) s2) as [[o s3] t3].
Qed.

(** What follows the membership block never touches single members. *)
Lemma resourceRoleUpdate_trace (d : ResourceData) (dn rn a : string)
    (rest : list string) (s : σ) :
  go_strings.Split (d_Id d) ROLE_SEPARATOR = dn :: rn :: rest →
  d_Get RoleSchema d "audit_ref" = VString a →
  ∃ later,
    trace (run zms (resourceRoleUpdate d) s) =
      trace (run zms (convergeMembers d dn rn a) s) ++ later
    ∧ Forall (λ c, is_membership_call c = false ∧ target c = Some (dn, rn)) later
    ∧ (later ≠ [] → result (run zms (convergeMembers d dn rn a) s) = Returned None).
Proof.
  intros Hid Ha. rewrite (resourceRoleUpdate_run d dn rn a rest s Hid Ha).
  destruct (run zms (convergeMembers d dn rn a) s) as [[[[e|]|msg] s1] t1];
    [exists []; by rewrite app_nil_r | | exists []; by rewrite app_nil_r].
  pose proof (convergeTags_calls zms d dn rn a s1) as Htags.
  destruct (run zms (convergeTags d dn rn a) s1) as [[[[e|]|msg] s2] t2];
    [by exists t2 | | by exists t2].
  pose proof (resourceRoleRead_trace zms s2 d dn rn rest Hid) as Hread.
  destruct (run zms (resourceRoleRead d) s2) as [[o s3] t3].
  cbn [trace snd] in *. subst t3. exists (t2 ++ [GetRole dn rn]).
  split; [done|]. split; [|done].
  apply Forall_app. split; [done | by repeat constructor].
Qed.

End update_run.

(** C5: in the calls of an Update, the per-member remove calls come first,
    then the per-member add calls, then calls that touch no single member.
    The removals are an initial part of the members of [O ∖ N], the
    additions an initial part of those of [N ∖ O]; each carries the audit
    reference; an addition is sent only after every removal, and a later
    call only after every removal and addition. *)
Theorem removals_before_additions {σ : Type} (zms : ZmsClient σ) (s : σ)
    (d : ResourceData) (dn rn a : string) (rest : list string) (O N : gset string) :
  go_strings.Split (d_Id d) ROLE_SEPARATOR = dn :: rn :: rest →
  d_Get RoleSchema d "audit_ref" = VString a →
  d_GetChange RoleSchema d "members" = (VSet O, VSet N) →
  ∃ removed added later,
    trace (run zms (resourceRoleUpdate d) s) =
      ((λ m, DeleteMembership dn rn (MemberName m) a) <$> removed)
      ++ ((λ m, PutMembership dn rn m a) <$> added) ++ later
    ∧ removed `prefix_of` expandRoleMembers (List (Difference O N))
    ∧ added `prefix_of` expandRoleMembers (List (Difference N O))
    ∧ (added ≠ [] → removed = expandRoleMembers (List (Difference O N)))
    ∧ Forall (λ c, is_membership_call c = false) later
    ∧ (later ≠ [] → removed = expandRoleMembers (List (Difference O N))
                    ∧ added = expandRoleMembers (List (Difference N O))).
Proof.
  intros Hid Ha Hchange.
  destruct (resourceRoleUpdate_trace zms d dn rn a rest s Hid Ha)
    as (later & Htrace & Hlater & Hnone).
  destruct (convergeMembers_run zms d dn rn a O N s Hchange)
    as (removed & added & o & s' & Hrun & Hr & Hadd & Hord & Hall).
  rewrite Hrun in Htrace, Hnone. cbn [trace result fst snd] in *.
  exists removed, added, later. rewrite Htrace, <- app_assoc.
  split; [done|]. split; [done|]. split; [done|]. split; [done|].
  split.
  - eapply Forall_impl; [exact Hlater | by intros c [? _]].
  - intros Hne. apply Hall. specialize (Hnone Hne). congruence.
Qed.

Lemma removals_before_additions_witness :
  ∃ removed added later,
    trace (run memory_zms (resourceRoleUpdate changed_readers)
             {["sports:role.readers" := readers]}) =
      ((λ m, DeleteMembership "sports" "readers" (MemberName m) "done by terraform")
         <$> removed)
      ++ ((λ m, PutMembership "sports" "readers" m "done by terraform") <$> added)
      ++ later
    ∧ removed `prefix_of`
        expandRoleMembers (List (Difference {["user.alice"; "user.bob"]}
                                            {["user.bob"; "user.carol"]}))
    ∧ added `prefix_of`
        expandRoleMembers (List (Difference {["user.bob"; "user.carol"]}
                                            {["user.alice"; "user.bob"]}))
    ∧ (added ≠ [] →
       removed = expandRoleMembers (List (Difference {["user.alice"; "user.bob"]}
                                                     {["user.bob"; "user.carol"]})))
    ∧ Forall (λ c, is_membership_call c = false) later
    ∧ (later ≠ [] →
       removed = expandRoleMembers (List (Difference {["user.alice"; "user.bob"]}
                                                     {["user.bob"; "user.carol"]}))
       ∧ added = expandRoleMembers (List (Difference {["user.bob"; "user.carol"]}
                                                     {["user.alice"; "user.bob"]}))).
Proof.
  apply (removals_before_additions memory_zms _ changed_readers "sports" "readers"
           "done by terraform" []); reflexivity.
Defined.

(** The membership scenario: alice is removed, then carol is added, bob is
    not touched. *)
Example membership_scenario :
  List.filter is_membership_call
    (trace (run memory_zms (resourceRoleUpdate changed_readers)
              {["sports:role.readers" := readers]})) =
    [DeleteMembership "sports" "readers" "user.alice" "done by terraform";
     PutMembership "sports" "readers" (mkRoleMember "user.carol" None) "done by terraform"].
Proof. vm_compute. reflexivity. Qed.

(** ** The tags block of Update *)

Lemma filter_is_PutRole_membership (t : list ZmsCall) :
  Forall (λ c, is_membership_call c = true) t → List.filter is_PutRole t = [].
Proof.
  induction 1 as [|c t Hc _ IH]; [done|].
  destruct c; try discriminate Hc; exact IH.
Qed.

Section tags.
Context {σ : Type} (zms : ZmsClient σ).

(** When the tags changed, the membership block went through and the
    re-fetch found the role, Update sends the fetch, then one write of the
    fetched role with its tags replaced, then at most Read's fetch. *)
Lemma resourceRoleUpdate_tags (d : ResourceData) (dn rn a : string)
    (rest : list string) (m : gmap string string) (role : Role)
    (s s1 s2 : σ) (t1 : list ZmsCall) :
  go_strings.Split (d_Id d) ROLE_SEPARATOR = dn :: rn :: rest →
  d_Get RoleSchema d "audit_ref" = VString a →
  d_HasChange RoleSchema d "tags" = true →
  (d_GetChange RoleSchema d "tags").2 = VMap m →
  run zms (convergeMembers d dn rn a) s = (Returned None, s1, t1) →
  zms (GetRole dn rn) s1 = ((Some role, None), s2) →
  ∃ t3,
    trace (run zms (resourceRoleUpdate d) s) =
      t1 ++ [GetRole dn rn; PutRole dn rn a (set_Tags role (expandRoleTags m))] ++ t3
    ∧ (t3 = [] ∨ t3 = [GetRole dn rn]).
Proof.
  intros Hid Ha Htags Hm Hmem Hget.
  rewrite (resourceRoleUpdate_run zms d dn rn a rest s Hid Ha), Hmem.
  unfold convergeTags. rewrite Htags. run_step. rewrite Hget.
  destruct (d_GetChange RoleSchema d "tags") as [o n]. cbn [snd] in Hm. subst n.
  run_step.
  destruct (zms (PutRole dn rn a (set_Tags role (expandRoleTags m))) s2) as [[e|] s3];
    run_step.
  - exists []. by split; [|left].
  - pose proof (resourceRoleRead_trace zms s3 d dn rn rest Hid) as Hread.
    destruct (run zms (resourceRoleRead d) s3) as [[o' s4] t3].
    cbn [trace snd] in *. subst t3. exists [GetRole dn rn]. by split; [|right].
Qed.

End tags.

(** C6: when the tags changed (the membership block having gone through and
    the re-fetch having found the role), Update fetches the role and sends
    one [PutRole] whose tag map is the whole desired tag map, every
    configured key with its value; it is the only [PutRole] of the Update. *)
Theorem tags_replaced_by_one_write {σ : Type} (zms : ZmsClient σ)
    (d : ResourceData) (dn rn a : string) (rest : list string)
    (m : gmap string string) (role : Role) (s s1 s2 : σ) (t1 : list ZmsCall) :
  go_strings.Split (d_Id d) ROLE_SEPARATOR = dn :: rn :: rest →
  d_Get RoleSchema d "audit_ref" = VString a →
  d_HasChange RoleSchema d "tags" = true →
  (d_GetChange RoleSchema d "tags").2 = VMap m →
  run zms (convergeMembers d dn rn a) s = (Returned None, s1, t1) →
  zms (GetRole dn rn) s1 = ((Some role, None), s2) →
  ∃ written t3,
    trace (run zms (resourceRoleUpdate d) s) =
      t1 ++ [GetRole dn rn; PutRole dn rn a written] ++ t3
    ∧ List.filter is_PutRole (trace (run zms (resourceRoleUpdate d) s)) =
        [PutRole dn rn a written]
    ∧ Tags written = expandRoleTags m
    ∧ (∀ k, Tags written !! k = (λ v, [v]) <$> m !! k).
Proof.
  intros Hid Ha Htags Hm Hmem Hget.
  destruct (resourceRoleUpdate_tags zms d dn rn a rest m role s s1 s2 t1
              Hid Ha Htags Hm Hmem Hget) as (t3 & Htrace & Ht3).
  exists (set_Tags role (expandRoleTags m)), t3. split; [done|].
  split.
  - rewrite Htrace, List.filter_app.
    pose proof (convergeMembers_calls zms d dn rn a s) as Hcalls.
    rewrite Hmem in Hcalls. cbn [trace snd] in Hcalls.
    rewrite filter_is_PutRole_membership.
    + by destruct Ht3 as [-> | ->].
    + eapply Forall_impl; [exact Hcalls | by intros c [? _]].
  - split; [done|]. intros k. cbn [Tags set_Tags]. unfold expandRoleTags.
    apply lookup_fmap.
Qed.

(** C10: the role that the tags block writes is the role the preceding
    [GetRole] returned with only its tags replaced: name, modification time,
    members and trust are the fetched ones.  No membership call follows the
    fetch, and none precedes it when the members did not change. *)
Theorem tags_write_keeps_other_fields {σ : Type} (zms : ZmsClient σ)
    (d : ResourceData) (dn rn a : string) (rest : list string)
    (m : gmap string string) (role : Role) (s s1 s2 : σ) (t1 : list ZmsCall) :
  go_strings.Split (d_Id d) ROLE_SEPARATOR = dn :: rn :: rest →
  d_Get RoleSchema d "audit_ref" = VString a →
  d_HasChange RoleSchema d "tags" = true →
  (d_GetChange RoleSchema d "tags").2 = VMap m →
  run zms (convergeMembers d dn rn a) s = (Returned None, s1, t1) →
  zms (GetRole dn rn) s1 = ((Some role, None), s2) →
  ∃ written t3,
    trace (run zms (resourceRoleUpdate d) s) =
      t1 ++ [GetRole dn rn; PutRole dn rn a written] ++ t3
    ∧ Name written = Name role
    ∧ Modified written = Modified role
    ∧ Members written = Members role
    ∧ RoleMembers written = RoleMembers role
    ∧ Trust written = Trust role
    ∧ Tags written = expandRoleTags m
    ∧ Forall (λ c, is_membership_call c = false) t3
    ∧ (d_HasChange RoleSchema d "members" = false → t1 = []).
Proof.
  intros Hid Ha Htags Hm Hmem Hget.
  destruct (resourceRoleUpdate_tags zms d dn rn a rest m role s s1 s2 t1
              Hid Ha Htags Hm Hmem Hget) as (t3 & Htrace & Ht3).
  exists (set_Tags role (expandRoleTags m)), t3.
  repeat (split; [done|]). split.
  - destruct Ht3 as [-> | ->]; by repeat constructor.
  - intros Hsame. unfold convergeMembers in Hmem. rewrite Hsame in Hmem.
    by injection Hmem.
Qed.

(** The tag scenario, after the membership scenario: one fetch, one write
    with the whole desired tag map and the fetched members. *)
Example tag_scenario :
  List.filter (λ c, negb (is_membership_call c))
    (trace (run memory_zms (resourceRoleUpdate changed_readers)
              {["sports:role.readers" := readers]})) =
    [GetRole "sports" "readers";
     PutRole "sports" "readers" "done by terraform"
       (mkRole "sports:role.readers" (Some 1) []
          [mkRoleMember "user.bob" (Some 99); mkRoleMember "user.carol" None] ""
          (<["env" := ["staging"]]> {["owner" := ["team-x"]]}));
     GetRole "sports" "readers"].
Proof. vm_compute. reflexivity. Qed.

Lemma tags_replaced_by_one_write_witness :
  ∃ written t3,
    trace (run memory_zms (resourceRoleUpdate changed_readers)
             {["sports:role.readers" := readers]}) =
      [DeleteMembership "sports" "readers" "user.alice" "done by terraform";
       PutMembership "sports" "readers" (mkRoleMember "user.carol" None)
         "done by terraform"]
      ++ [GetRole "sports" "readers";
          PutRole "sports" "readers" "done by terraform" written] ++ t3
    ∧ List.filter is_PutRole
        (trace (run memory_zms (resourceRoleUpdate changed_readers)
                  {["sports:role.readers" := readers]})) =
        [PutRole "sports" "readers" "done by terraform" written]
    ∧ Tags written = expandRoleTags (<["env" := "staging"]> {["owner" := "team-x"]})
    ∧ (∀ k, Tags written !! k =
            (λ v, [v]) <$> (<["env" := "staging"]> {["owner" := "team-x"]} : gmap string string) !! k).
Proof.
  apply (tags_replaced_by_one_write memory_zms changed_readers "sports" "readers"
           "done by terraform" []
           (<["env" := "staging"]> {["owner" := "team-x"]})
           (mkRole "sports:role.readers" (Some 1) []
              [mkRoleMember "user.bob" (Some 99); mkRoleMember "user.carol" None] ""
              {["env" := ["prod"]]})
           {["sports:role.readers" := readers]}
           (final (run memory_zms
                     (convergeMembers changed_readers "sports" "readers" "done by terraform")
                     {["sports:role.readers" := readers]}))
           (final (run memory_zms
                     (convergeMembers changed_readers "sports" "readers" "done by terraform")
                     {["sports:role.readers" := readers]})));
    vm_compute; reflexivity.
Defined.

Lemma tags_write_keeps_other_fields_witness :
  ∃ written t3,
    trace (run memory_zms (resourceRoleUpdate changed_readers)
             {["sports:role.readers" := readers]}) =
      [DeleteMembership "sports" "readers" "user.alice" "done by terraform";
       PutMembership "sports" "readers" (mkRoleMember "user.carol" None)
         "done by terraform"]
      ++ [GetRole "sports" "readers";
          PutRole "sports" "readers" "done by terraform" written] ++ t3
    ∧ Name written = "sports:role.readers"
    ∧ Modified written = Some 1
    ∧ Members written = []
    ∧ RoleMembers written =
        [mkRoleMember "user.bob" (Some 99); mkRoleMember "user.carol" None]
    ∧ Trust written = ""
    ∧ Tags written = expandRoleTags (<["env" := "staging"]> {["owner" := "team-x"]})
    ∧ Forall (λ c, is_membership_call c = false) t3
    ∧ (d_HasChange RoleSchema changed_readers "members" = false →
       [DeleteMembership "sports" "readers" "user.alice" "done by terraform";
        PutMembership "sports" "readers" (mkRoleMember "user.carol" None)
          "done by terraform"] = []).
Proof.
  apply (tags_write_keeps_other_fields memory_zms changed_readers "sports" "readers"
           "done by terraform" []
           (<["env" := "staging"]> {["owner" := "team-x"]})
           (mkRole "sports:role.readers" (Some 1) []
              [mkRoleMember "user.bob" (Some 99); mkRoleMember "user.carol" None] ""
              {["env" := ["prod"]]})
           {["sports:role.readers" := readers]}
           (final (run memory_zms
                     (convergeMembers changed_readers "sports" "readers" "done by terraform")
                     {["sports:role.readers" := readers]}))
           (final (run memory_zms
                     (convergeMembers changed_readers "sports" "readers" "done by terraform")
                     {["sports:role.readers" := readers]})));
    vm_compute; reflexivity.
Defined.

(** C6 as stated fails when the re-fetch fails: the tags of the stored role
    changed, the service answers the fetch with 403, and Update returns that
    error after the fetch alone, without any [PutRole]. *)
Lemma tags_refetch_failure_sends_no_write :
  d_HasChange RoleSchema retagged_readers "tags" = true
  ∧ run (fixed_zms (None, forbidden) (None, None) (None, None) None None)
        (resourceRoleUpdate retagged_readers) () =
      (Returned (retagged_readers, Some (ResourceError 403 "forbidden")), (),
       [GetRole "sports" "readers"])
  ∧ ¬ (∃ written,
         List.filter is_PutRole
           (trace (run (fixed_zms (None, forbidden) (None, None) (None, None) None None)
                     (resourceRoleUpdate retagged_readers) ())) = [written]).
Proof.
  split; [vm_compute; reflexivity|]. split; [vm_compute; reflexivity|].
  intros [written H]. vm_compute in H. discriminate H.
Qed.


(** ** The role identifier *)

(** On a service that does not know the role, Create writes it under the
    name [fullResourceName dn rn], stores that as the identifier and goes on
    to Read. *)
Lemma resourceRoleCreate_absent {σ : Type} (zms : ZmsClient σ) (s s1 : σ)
    (d : ResourceData) (dn rn a : string) (r : option Role) (msg : string)
    (M : gset string) (T : gmap string string) :
  d_Get RoleSchema d "domain" = VString dn →
  d_Get RoleSchema d "name" = VString rn →
  d_Get RoleSchema d "audit_ref" = VString a →
  d_Get RoleSchema d "members" = VSet M →
  d_Get RoleSchema d "tags" = VMap T →
  zms (GetRole dn rn) s = ((r, Some (ResourceError 404 msg)), s1) →
  ∃ role,
    Name role = fullResourceName dn rn
    ∧ run zms (resourceRoleCreate d) s =
        match zms (PutRole dn rn a role) s1 with
        | (Some e, s2) => (Returned (d, Some e), s2, [GetRole dn rn; PutRole dn rn a role])
        | (None, s2) =>
            let '(o, s3, t) :=
              run zms (resourceRoleRead (d_SetId d (fullResourceName dn rn))) s2 in
            (o, s3, GetRole dn rn :: PutRole dn rn a role :: t)
        end.
Proof.
  intros Hdn Hrn Ha HM HT Hget. unfold resourceRoleCreate, d_GetOk.
  rewrite Hdn, Hrn, Ha, HM, HT. run_step. rewrite Hget.
  change (404 =? 404) with true. cbn match.
  destruct (bool_decide (VSet M ≠ zero_of RoleSchema "members"));
    destruct (bool_decide (VMap T ≠ zero_of RoleSchema "tags")); run_step;
    match goal with
    | |- context [zms (PutRole dn rn a ?role) s1] =>
        exists role; split; [reflexivity|];
        destruct (zms (PutRole dn rn a role) s1) as [[e|] s2]; [done|];
        by destruct (run zms (resourceRoleRead _) s2) as [[o s3] t]
    end.
Qed.

(** Create of a role the service does not know, followed by a Read that
    finds it: the identifier stored is [fullResourceName dn rn], and the two
    names Read decodes from it and stores are the ones Create was given. *)
Lemma resourceRoleCreate_stores_id {σ : Type} (zms : ZmsClient σ) (s s1 : σ)
    (d : ResourceData) (dn rn a : string) (r : option Role) (msg : string)
    (M : gset string) (T : gmap string string) :
  go_strings.Index dn ROLE_SEPARATOR = None →
  go_strings.Index rn ROLE_SEPARATOR = None →
  d_Get RoleSchema d "domain" = VString dn →
  d_Get RoleSchema d "name" = VString rn →
  d_Get RoleSchema d "audit_ref" = VString a →
  d_Get RoleSchema d "members" = VSet M →
  d_Get RoleSchema d "tags" = VMap T →
  zms (GetRole dn rn) s = ((r, Some (ResourceError 404 msg)), s1) →
  ∃ role,
    Name role = fullResourceName dn rn
    ∧ ∀ (s2 s3 : σ) (fetched : Role),
        zms (PutRole dn rn a role) s1 = (None, s2) →
        zms (GetRole dn rn) s2 = ((Some fetched, None), s3) →
        ∃ d',
          run zms (resourceRoleCreate d) s =
            (Returned (d', None), s3,
             [GetRole dn rn; PutRole dn rn a role; GetRole dn rn])
          ∧ d_Id d' = fullResourceName dn rn
          ∧ d_Get RoleSchema d' "domain" = VString dn
          ∧ d_Get RoleSchema d' "name" = VString rn.
Proof.
  intros Hdn' Hrn' Hdn Hrn Ha HM HT Hget.
  destruct (resourceRoleCreate_absent zms s s1 d dn rn a r msg M T
              Hdn Hrn Ha HM HT Hget) as (role & Hname & Hrun).
  exists role. split; [done|]. intros s2 s3 fetched Hput Hget2.
  rewrite Hrun, Hput.
  destruct (resourceRoleRead_found zms s2 s3 (d_SetId d (fullResourceName dn rn))
              dn rn [] fetched (Split_join dn rn Hdn' Hrn') Hget2)
    as (d' & -> & Hid & Hd & Hn).
  by exists d'.
Qed.

(** C7, as the code has it: for names that do not contain the separator,
    the identifier Create builds is [<domain>:role.<role-name>] and decoding
    it gives the two names back.  Create stores that identifier: when the
    precheck answers 404, the write goes through and the Read that follows
    finds the role, the resource ends with that identifier and with the
    domain and name it was created with.  Read, Update and Delete of a
    resource with that identifier decode it to the two names: Read fetches
    that role, Delete deletes it and every call of Update addresses it. *)
Theorem role_id_round_trip (dn rn : string) :
  go_strings.Index dn ROLE_SEPARATOR = None →
  go_strings.Index rn ROLE_SEPARATOR = None →
  fullResourceName dn rn = dn +:+ ":role." +:+ rn
  ∧ splitResourceName (fullResourceName dn rn) = Ret (dn, rn)
  ∧ (∀ (σ : Type) (zms : ZmsClient σ) (s : σ) (d : ResourceData),
       trace (run zms (resourceRoleRead (d_SetId d (fullResourceName dn rn))) s) =
         [GetRole dn rn])
  ∧ (∀ (σ : Type) (zms : ZmsClient σ) (s s1 : σ) (d : ResourceData) (a : string)
       (r : option Role) (msg : string) (M : gset string) (T : gmap string string),
       d_Get RoleSchema d "domain" = VString dn →
       d_Get RoleSchema d "name" = VString rn →
       d_Get RoleSchema d "audit_ref" = VString a →
       d_Get RoleSchema d "members" = VSet M →
       d_Get RoleSchema d "tags" = VMap T →
       zms (GetRole dn rn) s = ((r, Some (ResourceError 404 msg)), s1) →
       ∃ role,
         Name role = dn +:+ ":role." +:+ rn
         ∧ (∀ (s2 : σ) (e : error),
              zms (PutRole dn rn a role) s1 = (Some e, s2) →
              run zms (resourceRoleCreate d) s =
                (Returned (d, Some e), s2, [GetRole dn rn; PutRole dn rn a role]))
         ∧ (∀ s2 : σ,
              zms (PutRole dn rn a role) s1 = (None, s2) →
              run zms (resourceRoleCreate d) s =
                let '(o, s3, t) :=
                  run zms (resourceRoleRead (d_SetId d (dn +:+ ":role." +:+ rn))) s2 in
                (o, s3, GetRole dn rn :: PutRole dn rn a role :: t))
         ∧ (∀ (s2 s3 : σ) (fetched : Role),
              zms (PutRole dn rn a role) s1 = (None, s2) →
              zms (GetRole dn rn) s2 = ((Some fetched, None), s3) →
              ∃ d',
                run zms (resourceRoleCreate d) s =
                  (Returned (d', None), s3,
                   [GetRole dn rn; PutRole dn rn a role; GetRole dn rn])
                ∧ d_Id d' = dn +:+ ":role." +:+ rn
                ∧ d_Get RoleSchema d' "domain" = VString dn
                ∧ d_Get RoleSchema d' "name" = VString rn))
  ∧ (∀ (σ : Type) (zms : ZmsClient σ) (s : σ) (d : ResourceData) (a : string),
       d_Id d = dn +:+ ":role." +:+ rn →
       d_Get RoleSchema d "audit_ref" = VString a →
       splitResourceName (d_Id d) = Ret (dn, rn)
       ∧ trace (run zms (resourceRoleRead d) s) = [GetRole dn rn]
       ∧ trace (run zms (resourceRoleDelete d) s) = [DeleteRole dn rn a]
       ∧ Forall (λ c, target c = Some (dn, rn)) (trace (run zms (resourceRoleUpdate d) s))
       ∧ ∃ later, trace (run zms (resourceRoleUpdate d) s) =
                    trace (run zms (convergeMembers d dn rn a) s) ++ later).
Proof.
  intros Hdn Hrn. pose proof (Split_join dn rn Hdn Hrn) as Hsplit.
  split; [done|]. split; [by apply (splitResourceName_cons _ dn rn [])|].
  split; [intros σ zms s d; by apply (resourceRoleRead_trace zms s _ dn rn [])|].
  split.
  - intros σ zms s s1 d a r msg M T Hd Hn Ha HM HT Hget.
    destruct (resourceRoleCreate_absent zms s s1 d dn rn a r msg M T
                Hd Hn Ha HM HT Hget) as (role & Hname & Hrun).
    exists role. split; [done|]. split; [|split].
    + intros s2 e Hput. by rewrite Hrun, Hput.
    + intros s2 Hput. by rewrite Hrun, Hput.
    + intros s2 s3 fetched Hput Hget2. rewrite Hrun, Hput.
      destruct (resourceRoleRead_found zms s2 s3 (d_SetId d (fullResourceName dn rn))
                  dn rn [] fetched Hsplit Hget2) as (d' & -> & Hid & Hd' & Hn').
      by exists d'.
  - intros σ zms s d a Hid Ha.
    assert (Hid' : go_strings.Split (d_Id d) ROLE_SEPARATOR = [dn; rn])
      by (rewrite Hid; exact Hsplit).
    split; [by apply (splitResourceName_cons _ dn rn [])|].
    split; [by apply (resourceRoleRead_trace zms s d dn rn [])|].
    split; [by apply (resourceRoleDelete_trace zms s d dn rn a [])|].
    destruct (resourceRoleUpdate_trace zms d dn rn a [] s Hid' Ha)
      as (later & Htrace & Hlater & _).
    split; [|by exists later].
    rewrite Htrace. apply Forall_app_2.
    + eapply Forall_impl; [apply convergeMembers_calls | by intros c [_ ?]].
    + eapply Forall_impl; [exact Hlater | by intros c [_ ?]].
Qed.

Lemma role_id_round_trip_witness :
  (∃ d' role,
     run memory_zms (resourceRoleCreate new_readers) ∅ =
       (Returned (d', None), {["sports:role.readers" := role]},
        [GetRole "sports" "readers";
         PutRole "sports" "readers" "done by terraform" role;
         GetRole "sports" "readers"])
     ∧ d_Id d' = "sports" +:+ ":role." +:+ "readers"
     ∧ d_Get RoleSchema d' "domain" = VString "sports"
     ∧ d_Get RoleSchema d' "name" = VString "readers")
  ∧ splitResourceName (d_Id changed_readers) = Ret ("sports", "readers")
  ∧ trace (run memory_zms (resourceRoleRead changed_readers)
             {["sports:role.readers" := readers]}) = [GetRole "sports" "readers"]
  ∧ trace (run memory_zms (resourceRoleDelete changed_readers)
             {["sports:role.readers" := readers]}) =
      [DeleteRole "sports" "readers" "done by terraform"]
  ∧ Forall (λ c, target c = Some ("sports", "readers"))
      (trace (run memory_zms (resourceRoleUpdate changed_readers)
                {["sports:role.readers" := readers]}))
  ∧ ∃ later,
      trace (run memory_zms (resourceRoleUpdate changed_readers)
               {["sports:role.readers" := readers]}) =
        trace (run memory_zms
                 (convergeMembers changed_readers "sports" "readers" "done by terraform")
                 {["sports:role.readers" := readers]}) ++ later.
Proof.
  destruct (role_id_round_trip "sports" "readers") as (_ & _ & _ & Hcreate & Hdecode);
    [reflexivity | reflexivity |].
  split.
  - destruct (Hcreate _ memory_zms ∅ ∅ new_readers "done by terraform" None "not found"
                {["user.bob"; "user.carol"]} {["env" := "staging"]})
      as (role & _ & _ & _ & Hfound); [vm_compute; reflexivity ..|].
    destruct (Hfound {["sports:role.readers" := role]} {["sports:role.readers" := role]}
                role) as (d' & Hd'); [reflexivity | reflexivity |].
    by exists d', role.
  - apply (Hdecode _ memory_zms {["sports:role.readers" := readers]} changed_readers
             "done by terraform"); reflexivity.
Defined.

(** The identifier of role [readers] in domain [sports]. *)
Example sports_readers_id : fullResourceName "sports" "readers" = "sports:role.readers".
Proof. reflexivity. Qed.

(** C7 as stated fails for a name that contains the separator: the role
    [a:role.b] of domain [sports] is decoded as role [a]. *)
Lemma separator_in_name_breaks_round_trip :
  splitResourceName (fullResourceName "sports" "a:role.b") = Ret ("sports", "a")
  ∧ ¬ (∀ dn rn : string, splitResourceName (fullResourceName dn rn) = Ret (dn, rn)).
Proof.
  split; [reflexivity|].
  intros H. specialize (H "sports" "a:role.b"). vm_compute in H. discriminate H.
Qed.




(** Creating the role [readers] of domain [sports] on an empty service: the
    identifier stored is [sports:role.readers], and the Read that follows
    decodes it to the names the role was created with. *)
Example create_scenario :
  ∃ d' roles,
    run memory_zms (resourceRoleCreate new_readers) ∅ =
      (Returned (d', None), roles,
       [GetRole "sports" "readers";
        PutRole "sports" "readers" "done by terraform"
          (mkRole "sports:role.readers" None []
             [mkRoleMember "user.carol" None; mkRoleMember "user.bob" None] ""
             {["env" := ["staging"]]});
        GetRole "sports" "readers"])
    ∧ d_Id d' = "sports:role.readers"
    ∧ written d' !! "domain" = Some (VString "sports")
    ∧ written d' !! "name" = Some (VString "readers").
Proof.
  eexists _, _. split; [vm_compute; reflexivity|].
  split; [reflexivity|]. split; vm_compute; reflexivity.
Qed.

(** * Further properties of the callbacks *)

(** ** Which identifiers decode *)

(** X1: Lines 104-105, 146-147, 176-177: the decoding of a stored identifier
    panics exactly when the identifier does not contain the separator.
    Otherwise the domain is the text before the first separator and the role
    name is the text after it, up to the next separator if there is one. *)
Theorem splitResourceName_panics_iff (id : string) :
  (splitResourceName id = Panic "runtime error: index out of range"
   ↔ go_strings.Index id ROLE_SEPARATOR = None)
  ∧ (∀ m, go_strings.Index id ROLE_SEPARATOR = Some m →
          let rest := go_strings.slice_from (m + String.length ROLE_SEPARATOR) id in
          splitResourceName id =
            Ret (go_strings.slice_to m id,
                 match go_strings.Index rest ROLE_SEPARATOR with
                 | Some m' => go_strings.slice_to m' rest
                 | None => rest
                 end)).
Proof.
  unfold splitResourceName, go_strings.Split.
  change (match ROLE_SEPARATOR with "" => _ | _ => ?x end) with x.
  destruct (go_strings.Index id ROLE_SEPARATOR) as [m|] eqn:Hi.
  - assert (∃ n, String.length id = S (S n)) as [n Hn].
    { pose proof (Index_bound _ _ _ Hi) as Hb. simpl in Hb.
      destruct (String.length id) as [|[|n]]; [lia | lia | by eexists]. }
    rewrite Hn. cbn [go_strings.genSplit]. rewrite Hi.
    destruct (go_strings.Index (go_strings.slice_from _ id) ROLE_SEPARATOR) eqn:Hr;
      cbn [index lookup list_lookup mbind prog_bind bind]; unfold mret, prog_ret;
      (split; [by split | intros ? [= <-]; cbv zeta; by rewrite Hr]).
  - split; [|done]. split; [done|]. intros _.
    destruct (String.length id); cbn [go_strings.genSplit]; by rewrite ?Hi.
Qed.

Lemma splitResourceName_panics_iff_witness :
  let rest := go_strings.slice_from (6 + String.length ROLE_SEPARATOR) "sports:role.readers" in
  splitResourceName "sports:role.readers" =
    Ret (go_strings.slice_to 6 "sports:role.readers",
         match go_strings.Index rest ROLE_SEPARATOR with
         | Some m' => go_strings.slice_to m' rest
         | None => rest
         end).
Proof.
  apply (proj2 (splitResourceName_panics_iff "sports:role.readers") 6%nat). reflexivity.
Defined.

(** ** Read of a role *)

(** X2: Lines 112-127 of [resourceRoleRead]: a fetch that fails otherwise than
    with a structured 404 makes Read return an error and keep the stored
    identifier.  A structured error is wrapped with the identifier, any
    other error is passed on as it is, and a fetch that returns neither a
    role nor an error is reported as a certificate problem. *)
Theorem read_role_failure_reported {σ : Type} (zms : ZmsClient σ) (s s' : σ)
    (d : ResourceData) (dn rn : string) (rest : list string)
    (r : option Role) (err : option error) :
  go_strings.Split (d_Id d) ROLE_SEPARATOR = dn :: rn :: rest →
  zms (GetRole dn rn) s = ((r, err), s') →
  (∀ msg, err ≠ Some (ResourceError 404 msg)) →
  (err = None → r = None) →
  ∃ d',
    run zms (resourceRoleRead d) s =
      (Returned (d', Some
         match err with
         | Some (ResourceError code msg) =>
             errorString ("error retrieving Athenz Role " +:+ d_Id d +:+ ": "
                          +:+ pretty code +:+ " " +:+ msg)
         | Some e => e
         | None =>
             errorString "error retrieving Athenz Role - Make sure your cert/key are valid"
         end), s', [GetRole dn rn])
    ∧ d_Id d' = d_Id d.
Proof.
  intros Hid Hget Hnot404 Hnil. unfold resourceRoleRead.
  rewrite (splitResourceName_cons _ _ _ _ Hid), run_ret_bind.
  rewrite d_Set_domain; cbn beta iota. rewrite d_Set_name; cbn beta iota.
  run_step. rewrite Hget.
  destruct err as [[code msg|msg]|].
  - destruct (Z.eqb_spec code 404) as [->|_]; [by destruct (Hnot404 msg)|].
    by eexists.
  - by eexists.
  - rewrite (Hnil eq_refl). by eexists.
Qed.

Lemma read_role_failure_reported_witness :
  ∃ d',
    run (fixed_zms (None, forbidden) (None, None) (None, None) None None)
        (resourceRoleRead (stored "sports:role.readers")) () =
      (Returned (d', Some (errorString
         ("error retrieving Athenz Role " +:+ "sports:role.readers" +:+ ": "
          +:+ pretty 403 +:+ " " +:+ "forbidden"))), (), [GetRole "sports" "readers"])
    ∧ d_Id d' = "sports:role.readers".
Proof.
  apply (read_role_failure_reported
           (fixed_zms (None, forbidden) (None, None) (None, None) None None) () ()
           (stored "sports:role.readers") "sports" "readers" [] None forbidden);
    [reflexivity | reflexivity | discriminate | discriminate].
Defined.

(** X3: Lines 125-141 of [resourceRoleRead]: when the role is found, Read keeps
    the identifier and stores the two decoded names; it stores the members
    and the tags of the role only when the role has some, so an empty remote
    list leaves the attribute as it was. *)
Theorem read_role_found {σ : Type} (zms : ZmsClient σ) (s s' : σ)
    (d : ResourceData) (dn rn : string) (rest : list string) (role : Role) :
  go_strings.Split (d_Id d) ROLE_SEPARATOR = dn :: rn :: rest →
  zms (GetRole dn rn) s = ((Some role, None), s') →
  ∃ d',
    run zms (resourceRoleRead d) s = (Returned (d', None), s', [GetRole dn rn])
    ∧ d_Id d' = d_Id d
    ∧ d_Get RoleSchema d' "domain" = VString dn
    ∧ d_Get RoleSchema d' "name" = VString rn
    ∧ d_Get RoleSchema d' "members" =
        match RoleMembers role with
        | [] => d_Get RoleSchema d "members"
        | _ => VSet (list_to_set (MemberName <$> RoleMembers role))
        end
    ∧ d_Get RoleSchema d' "tags" =
        (if decide (Tags role = ∅) then d_Get RoleSchema d "tags"
         else VMap (flattenTag (Tags role)))
    ∧ d_Get RoleSchema d' "audit_ref" = d_Get RoleSchema d "audit_ref".
Proof.
  intros Hid Hget. unfold resourceRoleRead.
  rewrite (splitResourceName_cons _ _ _ _ Hid), run_ret_bind.
  rewrite d_Set_domain; cbn beta iota. rewrite d_Set_name; cbn beta iota.
  run_step. rewrite Hget. unfold flattenRoleMembers.
  destruct (RoleMembers role) as [|m ms] eqn:Hms;
    [rewrite bool_decide_eq_false_2 by (simpl; lia)
    |rewrite bool_decide_eq_true_2 by (simpl; lia); rewrite d_Set_members];
    cbn beta iota;
    (destruct (decide (Tags role = ∅)) as [Ht|Ht];
     [rewrite bool_decide_eq_false_2 by (rewrite Ht, map_size_empty; lia)
     |rewrite bool_decide_eq_true_2
        by (apply Nat.neq_0_lt_0; by intros ?%map_size_empty_inv);
      rewrite d_Set_tags]);
    cbn beta iota;
    (eexists; split; [reflexivity|]); (split; [done|]);
    unfold d_Get; cbn [written planned]; by simplify_map_eq.
Qed.

Lemma read_role_found_witness :
  ∃ d',
    run memory_zms (resourceRoleRead (stored "sports:role.readers"))
        {["sports:role.readers" := readers]} =
      (Returned (d', None), {["sports:role.readers" := readers]},
       [GetRole "sports" "readers"])
    ∧ d_Id d' = "sports:role.readers"
    ∧ d_Get RoleSchema d' "domain" = VString "sports"
    ∧ d_Get RoleSchema d' "name" = VString "readers"
    ∧ d_Get RoleSchema d' "members" =
        match RoleMembers readers with
        | [] => d_Get RoleSchema (stored "sports:role.readers") "members"
        | _ => VSet (list_to_set (MemberName <$> RoleMembers readers))
        end
    ∧ d_Get RoleSchema d' "tags" =
        (if decide (Tags readers = ∅)
         then d_Get RoleSchema (stored "sports:role.readers") "tags"
         else VMap (flattenTag (Tags readers)))
    ∧ d_Get RoleSchema d' "audit_ref" =
        d_Get RoleSchema (stored "sports:role.readers") "audit_ref".
Proof.
  apply (read_role_found memory_zms _ _ (stored "sports:role.readers")
           "sports" "readers" [] readers); reflexivity.
Defined.

(** ** Create of a role *)

(** The members and tags of the role Create builds, for configured members
    [M] and tags [T] (lines 75-81). *)
Lemma created_members (M : gset string) :
  let members :=
    if bool_decide (VSet M ≠ zero_of RoleSchema "members")
    then (if bool_decide (0 < Len M)%nat then expandRoleMembers (List M) else [])
    else [] in
  list_to_set (MemberName <$> members) = M
  ∧ NoDup (MemberName <$> members)
  ∧ Forall (λ m, Expiration m = None) members.
Proof.
  cbv zeta. change (zero_of RoleSchema "members") with (VSet ∅).
  case_bool_decide as HM.
  - case_bool_decide as HL.
    + rewrite flatten_expand. unfold List.
      split; [apply list_to_set_elements_L|]. split; [apply NoDup_elements|].
      unfold expandRoleMembers. apply Forall_fmap, Forall_true. by intros x.
    + assert (M = ∅) as ->.
      { apply leibniz_equiv, size_empty_inv. unfold Len in HL. lia. }
      split; [done|]. split; constructor.
  - assert (M = ∅) as ->.
    { by injection HM. }
    split; [done|]. split; constructor.
Qed.

Lemma created_tags (T : gmap string string) :
  (if bool_decide (VMap T ≠ zero_of RoleSchema "tags")
   then expandRoleTags T else ∅) = expandRoleTags T.
Proof.
  change (zero_of RoleSchema "tags") with (VMap ∅).
  case_bool_decide as HT; [done|].
  assert (T = ∅) as ->.
  { by injection HT. }
  unfold expandRoleTags. by rewrite fmap_empty.
Qed.

(** Lines 70-86 of [resourceRoleCreate], with the role it builds spelled out. *)
Lemma resourceRoleCreate_absent_run {σ : Type} (zms : ZmsClient σ) (s s1 : σ)
    (d : ResourceData) (dn rn a : string) (r : option Role) (msg : string)
    (M : gset string) (T : gmap string string) :
  d_Get RoleSchema d "domain" = VString dn →
  d_Get RoleSchema d "name" = VString rn →
  d_Get RoleSchema d "audit_ref" = VString a →
  d_Get RoleSchema d "members" = VSet M →
  d_Get RoleSchema d "tags" = VMap T →
  zms (GetRole dn rn) s = ((r, Some (ResourceError 404 msg)), s1) →
  let role :=
    mkRole (fullResourceName dn rn) None []
      (if bool_decide (VSet M ≠ zero_of RoleSchema "members")
       then (if bool_decide (0 < Len M)%nat then expandRoleMembers (List M) else [])
       else [])
      ""
      (if bool_decide (VMap T ≠ zero_of RoleSchema "tags")
       then expandRoleTags T else ∅) in
  run zms (resourceRoleCreate d) s =
    match zms (PutRole dn rn a role) s1 with
    | (Some e, s2) => (Returned (d, Some e), s2, [GetRole dn rn; PutRole dn rn a role])
    | (None, s2) =>
        let '(o, s3, t) :=
          run zms (resourceRoleRead (d_SetId d (fullResourceName dn rn))) s2 in
        (o, s3, GetRole dn rn :: PutRole dn rn a role :: t)
    end.
Proof.
  intros Hdn Hrn Ha HM HT Hget role. subst role.
  unfold resourceRoleCreate, d_GetOk.
  rewrite Hdn, Hrn, Ha, HM, HT. run_step. rewrite Hget.
  change (404 =? 404) with true. cbn match.
  destruct (bool_decide (VSet M ≠ zero_of RoleSchema "members"));
    destruct (bool_decide (VMap T ≠ zero_of RoleSchema "tags")); run_step;
    match goal with
    | |- context [zms (PutRole dn rn a ?role) s1] =>
        destruct (zms (PutRole dn rn a role) s1) as [[e|] s2]; [done|];
        by destruct (run zms (resourceRoleRead _) s2) as [[o s3] t]
    end.
Qed.

(** Whatever the identifier, Read sends at most one call, a role fetch. *)
Lemma resourceRoleRead_calls {σ : Type} (zms : ZmsClient σ) (s : σ) (d : ResourceData) :
  trace (run zms (resourceRoleRead d) s) = []
  ∨ ∃ dn rn, trace (run zms (resourceRoleRead d) s) = [GetRole dn rn].
Proof.
  destruct (go_strings.Split (d_Id d) ROLE_SEPARATOR) as [|dn [|rn rest]] eqn:Hid.
  - left. unfold resourceRoleRead.
    rewrite splitResourceName_short; [done | rewrite Hid; simpl; lia].
  - left. unfold resourceRoleRead.
    rewrite splitResourceName_short; [done | rewrite Hid; simpl; lia].
  - right. exists dn, rn. by apply (resourceRoleRead_trace zms s d dn rn rest).
Qed.

(** X4: Lines 70-82 of [resourceRoleCreate]: when the precheck answers 404,
    Create sends, as its second call, one [PutRole] with the audit
    reference.  The role it sends is named by the identifier, has no
    modification time, has exactly the configured members, each once and
    without expiration, and the configured tags.  At most a role fetch
    follows. *)
Theorem create_role_sends_configured_role {σ : Type} (zms : ZmsClient σ) (s s1 : σ)
    (d : ResourceData) (dn rn a : string) (r : option Role) (msg : string)
    (M : gset string) (T : gmap string string) :
  d_Get RoleSchema d "domain" = VString dn →
  d_Get RoleSchema d "name" = VString rn →
  d_Get RoleSchema d "audit_ref" = VString a →
  d_Get RoleSchema d "members" = VSet M →
  d_Get RoleSchema d "tags" = VMap T →
  zms (GetRole dn rn) s = ((r, Some (ResourceError 404 msg)), s1) →
  ∃ role later,
    trace (run zms (resourceRoleCreate d) s) =
      GetRole dn rn :: PutRole dn rn a role :: later
    ∧ (later = [] ∨ ∃ dn' rn', later = [GetRole dn' rn'])
    ∧ Name role = dn +:+ ":role." +:+ rn
    ∧ Modified role = None
    ∧ list_to_set (MemberName <$> RoleMembers role) = M
    ∧ NoDup (MemberName <$> RoleMembers role)
    ∧ Forall (λ m, Expiration m = None) (RoleMembers role)
    ∧ Tags role = expandRoleTags T.
Proof.
  intros Hdn Hrn Ha HM HT Hget.
  pose proof (resourceRoleCreate_absent_run zms s s1 d dn rn a r msg M T
                Hdn Hrn Ha HM HT Hget) as Hrun. cbv zeta in Hrun.
  destruct (created_members M) as (Hset & Hnodup & Hexp).
  pose proof (created_tags T) as Htags.
  match type of Hrun with
  | context [zms (PutRole dn rn a ?role) s1] => set (sent := role) in *
  end.
  exists sent.
  destruct (zms (PutRole dn rn a sent) s1) as [[e|] s2].
  - exists []. rewrite Hrun. subst sent.
    split; [done|]. split; [by left|]. by repeat (split; [done|]).
  - pose proof (resourceRoleRead_calls zms s2 (d_SetId d (fullResourceName dn rn)))
      as Hread.
    destruct (run zms (resourceRoleRead _) s2) as [[o s3] t].
    exists t. rewrite Hrun. subst sent. cbn [trace snd] in Hread.
    split; [done|]. split; [done|]. by repeat (split; [done|]).
Qed.

Lemma create_role_sends_configured_role_witness :
  ∃ role later,
    trace (run memory_zms (resourceRoleCreate new_readers) ∅) =
      GetRole "sports" "readers"
      :: PutRole "sports" "readers" "done by terraform" role :: later
    ∧ (later = [] ∨ ∃ dn' rn', later = [GetRole dn' rn'])
    ∧ Name role = "sports" +:+ ":role." +:+ "readers"
    ∧ Modified role = None
    ∧ list_to_set (MemberName <$> RoleMembers role) =
        ({["user.bob"; "user.carol"]} : gset string)
    ∧ NoDup (MemberName <$> RoleMembers role)
    ∧ Forall (λ m, Expiration m = None) (RoleMembers role)
    ∧ Tags role = expandRoleTags {["env" := "staging"]}.
Proof.
  apply (create_role_sends_configured_role memory_zms ∅ ∅ new_readers
           "sports" "readers" "done by terraform" None "not found"); reflexivity.
Defined.

(** X5: Lines 82-85 of [resourceRoleCreate]: when the write fails, Create
    returns the error of the write as it is; the resource data, identifier
    included, is left as it was and no Read follows. *)
Theorem create_role_write_failure {σ : Type} (zms : ZmsClient σ) (s s1 : σ)
    (d : ResourceData) (dn rn a : string) (r : option Role) (msg : string)
    (M : gset string) (T : gmap string string) :
  d_Get RoleSchema d "domain" = VString dn →
  d_Get RoleSchema d "name" = VString rn →
  d_Get RoleSchema d "audit_ref" = VString a →
  d_Get RoleSchema d "members" = VSet M →
  d_Get RoleSchema d "tags" = VMap T →
  zms (GetRole dn rn) s = ((r, Some (ResourceError 404 msg)), s1) →
  (∀ role, ∃ e, (zms (PutRole dn rn a role) s1).1 = Some e) →
  ∃ role e,
    run zms (resourceRoleCreate d) s =
      (Returned (d, Some e), (zms (PutRole dn rn a role) s1).2,
       [GetRole dn rn; PutRole dn rn a role])
    ∧ (zms (PutRole dn rn a role) s1).1 = Some e.
Proof.
  intros Hdn Hrn Ha HM HT Hget Hput.
  pose proof (resourceRoleCreate_absent_run zms s s1 d dn rn a r msg M T
                Hdn Hrn Ha HM HT Hget) as Hrun. cbv zeta in Hrun.
  match type of Hrun with
  | context [zms (PutRole dn rn a ?role) s1] => set (sent := role) in *
  end.
  destruct (Hput sent) as [e He]. exists sent, e. rewrite Hrun.
  destruct (zms (PutRole dn rn a sent) s1) as [o s2]. simpl in He. by subst o.
Qed.

Lemma create_role_write_failure_witness :
  ∃ role e,
    run (fixed_zms (None, not_found) (None, None) (None, None) forbidden None)
        (resourceRoleCreate new_readers) () =
      (Returned (new_readers, Some e),
       (fixed_zms (None, not_found) (None, None) (None, None) forbidden None
          (PutRole "sports" "readers" "done by terraform" role) ()).2,
       [GetRole "sports" "readers"; PutRole "sports" "readers" "done by terraform" role])
    ∧ (fixed_zms (None, not_found) (None, None) (None, None) forbidden None
         (PutRole "sports" "readers" "done by terraform" role) ()).1 = Some e.
Proof.
  apply (create_role_write_failure
           (fixed_zms (None, not_found) (None, None) (None, None) forbidden None) () ()
           new_readers "sports" "readers" "done by terraform" None "not found"
           {["user.bob"; "user.carol"]} {["env" := "staging"]});
    try reflexivity.
  intros role. by eexists.
Defined.

(** X6: Lines 89-94 of [resourceRoleCreate]: when the precheck returns neither a
    role nor an error, Create returns no error, although it has written
    nothing and has not set the identifier. *)
Theorem create_role_blank_precheck {σ : Type} (zms : ZmsClient σ) (s s' : σ)
    (d : ResourceData) (dn rn : string) :
  d_Get RoleSchema d "domain" = VString dn →
  d_Get RoleSchema d "name" = VString rn →
  zms (GetRole dn rn) s = ((None, None), s') →
  run zms (resourceRoleCreate d) s = (Returned (d, None), s', [GetRole dn rn]).
Proof.
  intros Hdn Hrn Hget. unfold resourceRoleCreate.
  rewrite Hdn, Hrn. run_step. by rewrite Hget.
Qed.

Lemma create_role_blank_precheck_witness :
  run (fixed_zms (None, None) (None, None) (None, None) None None)
      (resourceRoleCreate new_readers) () =
    (Returned (new_readers, None), (), [GetRole "sports" "readers"]).
Proof.
  apply (create_role_blank_precheck
           (fixed_zms (None, None) (None, None) (None, None) None None) () ()
           new_readers "sports" "readers"); reflexivity.
Defined.

(** ** Update of a role: what else it does *)

(** X10: Lines 149, 158 and 171 of [resourceRoleUpdate]: when neither the members
    nor the tags changed, Update is a Read: it sends no write at all. *)
Theorem update_without_changes_is_read {σ : Type} (zms : ZmsClient σ) (s : σ)
    (d : ResourceData) (dn rn a : string) (rest : list string) :
  go_strings.Split (d_Id d) ROLE_SEPARATOR = dn :: rn :: rest →
  d_Get RoleSchema d "audit_ref" = VString a →
  d_HasChange RoleSchema d "members" = false →
  d_HasChange RoleSchema d "tags" = false →
  run zms (resourceRoleUpdate d) s = run zms (resourceRoleRead d) s
  ∧ trace (run zms (resourceRoleUpdate d) s) = [GetRole dn rn].
Proof.
  intros Hid Ha Hm Ht.
  rewrite (resourceRoleUpdate_run zms d dn rn a rest s Hid Ha).
  unfold convergeMembers, convergeTags. rewrite Hm, Ht. run_step.
  pose proof (resourceRoleRead_trace zms s d dn rn rest Hid) as Hread.
  by destruct (run zms (resourceRoleRead d) s) as [[o s3] t3].
Qed.

Lemma update_without_changes_is_read_witness :
  run memory_zms (resourceRoleUpdate (stored "sports:role.readers")) ∅ =
    run memory_zms (resourceRoleRead (stored "sports:role.readers")) ∅
  ∧ trace (run memory_zms (resourceRoleUpdate (stored "sports:role.readers")) ∅) =
      [GetRole "sports" "readers"].
Proof.
  apply (update_without_changes_is_read memory_zms ∅ (stored "sports:role.readers")
           "sports" "readers" "done by terraform" []); reflexivity.
Defined.

(** X11: Lines 153-156 of [resourceRoleUpdate]: when a membership call fails,
    Update returns its error wrapped as a membership error and stops: the
    calls sent are those of [updateRoleMembers], the tags are not touched,
    no Read follows and the resource data is left as it was. *)
Theorem update_membership_failure {σ : Type} (zms : ZmsClient σ) (s : σ)
    (d : ResourceData) (dn rn a : string) (rest : list string)
    (O N : gset string) (e : error) :
  go_strings.Split (d_Id d) ROLE_SEPARATOR = dn :: rn :: rest →
  d_Get RoleSchema d "audit_ref" = VString a →
  d_GetChange RoleSchema d "members" = (VSet O, VSet N) →
  result (run zms (updateRoleMembers dn rn
                     (expandRoleMembers (List (Difference O N)))
                     (expandRoleMembers (List (Difference N O))) a) s) =
    Returned (Some e) →
  run zms (resourceRoleUpdate d) s =
    (Returned (d, Some (errorString ("error updating group membership: " +:+ Error e))),
     final (run zms (updateRoleMembers dn rn
                       (expandRoleMembers (List (Difference O N)))
                       (expandRoleMembers (List (Difference N O))) a) s),
     trace (run zms (updateRoleMembers dn rn
                       (expandRoleMembers (List (Difference O N)))
                       (expandRoleMembers (List (Difference N O))) a) s)).
Proof.
  intros Hid Ha Hchange Hfail.
  rewrite (resourceRoleUpdate_run zms d dn rn a rest s Hid Ha).
  unfold convergeMembers, handleChange.
  rewrite (d_HasChange_GetChange _ _ _ _ _ Hchange), Hchange.
  case_bool_decide as Hne.
  - run_step. rewrite run_bind.
    destruct (run zms (updateRoleMembers _ _ _ _ _) s) as [[o s1] t1].
    cbn [result fst] in Hfail. subst o. run_step. by rewrite app_nil_r.
  - assert (O = N) as -> by (destruct (decide (O = N)); [done | congruence]).
    rewrite Difference_self in Hfail. discriminate Hfail.
Qed.

Lemma update_membership_failure_witness :
  run (fixed_zms (Some readers, None) (None, None) (None, None) None refused)
      (resourceRoleUpdate changed_readers) () =
    (Returned (changed_readers,
               Some (errorString ("error updating group membership: "
                                  +:+ Error (errorString "connection refused")))),
     final (run (fixed_zms (Some readers, None) (None, None) (None, None) None refused)
              (updateRoleMembers "sports" "readers"
                 (expandRoleMembers (List (Difference {["user.alice"; "user.bob"]}
                                                      {["user.bob"; "user.carol"]})))
                 (expandRoleMembers (List (Difference {["user.bob"; "user.carol"]}
                                                      {["user.alice"; "user.bob"]})))
                 "done by terraform") ()),
     trace (run (fixed_zms (Some readers, None) (None, None) (None, None) None refused)
              (updateRoleMembers "sports" "readers"
                 (expandRoleMembers (List (Difference {["user.alice"; "user.bob"]}
                                                      {["user.bob"; "user.carol"]})))
                 (expandRoleMembers (List (Difference {["user.bob"; "user.carol"]}
                                                      {["user.alice"; "user.bob"]})))
                 "done by terraform") ())).
Proof.
  apply (update_membership_failure
           (fixed_zms (Some readers, None) (None, None) (None, None) None refused) ()
           changed_readers "sports" "readers" "done by terraform" []);
    vm_compute; reflexivity.
Defined.

(** X12: Lines 159-162 of [resourceRoleUpdate]: when the re-fetch of the tags
    block fails, with any error, a 404 included, Update returns that error
    as it is; no [PutRole] is sent, no Read follows and the resource data,
    identifier included, is left as it was. *)
Theorem update_tags_fetch_failure {σ : Type} (zms : ZmsClient σ)
    (d : ResourceData) (dn rn a : string) (rest : list string)
    (r : option Role) (e : error) (s s1 s2 : σ) (t1 : list ZmsCall) :
  go_strings.Split (d_Id d) ROLE_SEPARATOR = dn :: rn :: rest →
  d_Get RoleSchema d "audit_ref" = VString a →
  d_HasChange RoleSchema d "tags" = true →
  run zms (convergeMembers d dn rn a) s = (Returned None, s1, t1) →
  zms (GetRole dn rn) s1 = ((r, Some e), s2) →
  run zms (resourceRoleUpdate d) s = (Returned (d, Some e), s2, t1 ++ [GetRole dn rn]).
Proof.
  intros Hid Ha Htags Hmem Hget.
  rewrite (resourceRoleUpdate_run zms d dn rn a rest s Hid Ha), Hmem.
  unfold convergeTags. rewrite Htags. run_step. by rewrite Hget.
Qed.

Lemma update_tags_fetch_failure_witness :
  run memory_zms (resourceRoleUpdate retagged_readers) ∅ =
    (Returned (retagged_readers, Some (ResourceError 404 "not found")), ∅,
     [] ++ [GetRole "sports" "readers"]).
Proof.
  apply (update_tags_fetch_failure memory_zms retagged_readers "sports" "readers"
           "done by terraform" [] None (ResourceError 404 "not found") ∅ ∅ ∅ []);
    vm_compute; reflexivity.
Defined.

(** X13: Lines 166-169 of [resourceRoleUpdate]: when the whole-role write of the
    tags block fails, Update returns its error wrapped as a tags error; no
    Read follows and the resource data is left as it was. *)
Theorem update_tags_write_failure {σ : Type} (zms : ZmsClient σ)
    (d : ResourceData) (dn rn a : string) (rest : list string)
    (m : gmap string string) (role : Role) (e : error)
    (s s1 s2 s3 : σ) (t1 : list ZmsCall) :
  go_strings.Split (d_Id d) ROLE_SEPARATOR = dn :: rn :: rest →
  d_Get RoleSchema d "audit_ref" = VString a →
  d_HasChange RoleSchema d "tags" = true →
  (d_GetChange RoleSchema d "tags").2 = VMap m →
  run zms (convergeMembers d dn rn a) s = (Returned None, s1, t1) →
  zms (GetRole dn rn) s1 = ((Some role, None), s2) →
  zms (PutRole dn rn a (set_Tags role (expandRoleTags m))) s2 = (Some e, s3) →
  run zms (resourceRoleUpdate d) s =
    (Returned (d, Some (errorString ("error updating tags: " +:+ Error e))), s3,
     t1 ++ [GetRole dn rn; PutRole dn rn a (set_Tags role (expandRoleTags m))]).
Proof.
  intros Hid Ha Htags Hm Hmem Hget Hput.
  rewrite (resourceRoleUpdate_run zms d dn rn a rest s Hid Ha), Hmem.
  unfold convergeTags. rewrite Htags. run_step. rewrite Hget.
  destruct (d_GetChange RoleSchema d "tags") as [o n]. cbn [snd] in Hm. subst n.
  run_step. by rewrite Hput.
Qed.

Lemma update_tags_write_failure_witness :
  run (fixed_zms (Some readers, None) (None, None) (None, None) forbidden None)
      (resourceRoleUpdate retagged_readers) () =
    (Returned (retagged_readers,
               Some (errorString ("error updating tags: "
                                  +:+ Error (ResourceError 403 "forbidden")))), (),
     [] ++ [GetRole "sports" "readers";
            PutRole "sports" "readers" "done by terraform"
              (set_Tags readers (expandRoleTags {["env" := "staging"]}))]).
Proof.
  apply (update_tags_write_failure
           (fixed_zms (Some readers, None) (None, None) (None, None) forbidden None)
           retagged_readers "sports" "readers" "done by terraform" []
           {["env" := "staging"]} readers (ResourceError 403 "forbidden") () () () () []);
    vm_compute; reflexivity.
Defined.

(** X14: Lines 159-165 of [resourceRoleUpdate]: unlike Read, the tags block does
    not check the fetched role: when the re-fetch returns neither a role nor
    an error, the assignment to its tags panics, after the fetch and before
    any write. *)
Theorem update_tags_blank_fetch_panics {σ : Type} (zms : ZmsClient σ)
    (d : ResourceData) (dn rn a : string) (rest : list string)
    (m : gmap string string) (s s1 s2 : σ) (t1 : list ZmsCall) :
  go_strings.Split (d_Id d) ROLE_SEPARATOR = dn :: rn :: rest →
  d_Get RoleSchema d "audit_ref" = VString a →
  d_HasChange RoleSchema d "tags" = true →
  (d_GetChange RoleSchema d "tags").2 = VMap m →
  run zms (convergeMembers d dn rn a) s = (Returned None, s1, t1) →
  zms (GetRole dn rn) s1 = ((None, None), s2) →
  run zms (resourceRoleUpdate d) s =
    (Panicked "runtime error: invalid memory address or nil pointer dereference", s2,
     t1 ++ [GetRole dn rn]).
Proof.
  intros Hid Ha Htags Hm Hmem Hget.
  rewrite (resourceRoleUpdate_run zms d dn rn a rest s Hid Ha), Hmem.
  unfold convergeTags. rewrite Htags. run_step. rewrite Hget.
  destruct (d_GetChange RoleSchema d "tags") as [o n]. cbn [snd] in Hm. by subst n.
Qed.

Lemma update_tags_blank_fetch_panics_witness :
  run (fixed_zms (None, None) (None, None) (None, None) None None)
      (resourceRoleUpdate retagged_readers) () =
    (Panicked "runtime error: invalid memory address or nil pointer dereference", (),
     [] ++ [GetRole "sports" "readers"]).
Proof.
  apply (update_tags_blank_fetch_panics
           (fixed_zms (None, None) (None, None) (None, None) None None)
           retagged_readers "sports" "readers" "done by terraform" []
           {["env" := "staging"]} () () () []);
    vm_compute; reflexivity.
Defined.

Lemma filter_membership_fmap {A : Type} (f : A → ZmsCall) (l : list A) :
  (∀ x, is_membership_call (f x) = true) →
  List.filter is_membership_call (f <$> l) = f <$> l.
Proof.
  intros Hf. induction l as [|x l IH]; [done|].
  rewrite fmap_cons. simpl. by rewrite Hf, IH.
Qed.

Lemma filter_membership_none (l : list ZmsCall) :
  Forall (λ c, is_membership_call c = false) l →
  List.filter is_membership_call l = [].
Proof. induction 1 as [|c l Hc _ IH]; [done|]. simpl. by rewrite Hc. Qed.

(** X15: Lines 149-157 and 171 of [resourceRoleUpdate]: an Update that returns no
    error has sent one remove call for every member of [O ∖ N] and then one
    add call for every member of [N ∖ O], and no other membership call. *)
Theorem update_without_error_sent_all {σ : Type} (zms : ZmsClient σ) (s : σ)
    (d : ResourceData) (dn rn a : string) (rest : list string) (O N : gset string) :
  go_strings.Split (d_Id d) ROLE_SEPARATOR = dn :: rn :: rest →
  d_Get RoleSchema d "audit_ref" = VString a →
  d_GetChange RoleSchema d "members" = (VSet O, VSet N) →
  (∃ d', result (run zms (resourceRoleUpdate d) s) = Returned (d', None)) →
  List.filter is_membership_call (trace (run zms (resourceRoleUpdate d) s)) =
    ((λ m, DeleteMembership dn rn m a) <$> List (Difference O N))
    ++ ((λ m, PutMembership dn rn (mkRoleMember m None) a) <$> List (Difference N O)).
Proof.
  intros Hid Ha Hchange [d' Hok].
  destruct (resourceRoleUpdate_trace zms d dn rn a rest s Hid Ha)
    as (later & Htrace & Hlater & _).
  destruct (convergeMembers_run zms d dn rn a O N s Hchange)
    as (removed & added & o & s1 & Hrun & _ & _ & _ & Hall).
  rewrite (resourceRoleUpdate_run zms d dn rn a rest s Hid Ha) in Hok.
  rewrite Htrace. rewrite Hrun in Hok |- *. cbn [trace snd].
  destruct o as [e|]; [discriminate Hok|].
  destruct (Hall eq_refl) as [-> ->].
  rewrite !List.filter_app, !filter_membership_fmap by done.
  rewrite filter_membership_none
    by (eapply Forall_impl; [exact Hlater | by intros c [? _]]).
  rewrite app_nil_r. unfold expandRoleMembers.
  by rewrite <- !list_fmap_compose.
Qed.

Lemma update_without_error_sent_all_witness :
  List.filter is_membership_call
    (trace (run memory_zms (resourceRoleUpdate changed_readers)
              {["sports:role.readers" := readers]})) =
    ((λ m, DeleteMembership "sports" "readers" m "done by terraform")
       <$> List (Difference {["user.alice"; "user.bob"]} {["user.bob"; "user.carol"]}))
    ++ ((λ m, PutMembership "sports" "readers" (mkRoleMember m None) "done by terraform")
          <$> List (Difference {["user.bob"; "user.carol"]} {["user.alice"; "user.bob"]})).
Proof.
  apply (update_without_error_sent_all memory_zms _ changed_readers
           "sports" "readers" "done by terraform" []);
    [reflexivity | reflexivity | reflexivity |].
  eexists. vm_compute. reflexivity.
Defined.

(** ** Delete of a role *)

(** X16: Lines 174-185 of [resourceRoleDelete]: Delete sends one [DeleteRole]
    for the decoded names with the audit reference and returns what that
    call returns, a 404 included; it leaves the resource data, identifier
    included, as it was. *)
Theorem delete_role_one_call {σ : Type} (zms : ZmsClient σ) (s : σ)
    (d : ResourceData) (dn rn a : string) (rest : list string) :
  go_strings.Split (d_Id d) ROLE_SEPARATOR = dn :: rn :: rest →
  d_Get RoleSchema d "audit_ref" = VString a →
  run zms (resourceRoleDelete d) s =
    (Returned (d, (zms (DeleteRole dn rn a) s).1), (zms (DeleteRole dn rn a) s).2,
     [DeleteRole dn rn a]).
Proof.
  intros Hid Ha. unfold resourceRoleDelete.
  rewrite (splitResourceName_cons _ _ _ _ Hid), run_ret_bind, Ha.
  run_step. by destruct (zms (DeleteRole dn rn a) s) as [[e|] s1].
Qed.

Lemma delete_role_one_call_witness :
  run memory_zms (resourceRoleDelete (stored "sports:role.readers"))
      {["sports:role.readers" := readers]} =
    (Returned (stored "sports:role.readers",
               (memory_zms (DeleteRole "sports" "readers" "done by terraform")
                  {["sports:role.readers" := readers]}).1),
     (memory_zms (DeleteRole "sports" "readers" "done by terraform")
        {["sports:role.readers" := readers]}).2,
     [DeleteRole "sports" "readers" "done by terraform"]).
Proof.
  apply (delete_role_one_call memory_zms _ (stored "sports:role.readers")
           "sports" "readers" "done by terraform" []); reflexivity.
Defined.

(** ** Create of a top-level domain *)

(** [int32] keeps the values of the 32-bit range and only those; every
    other value wraps around into the range. *)
Lemma int32_range (n : Z) :
  - 2 ^ 31 ≤ int32 n < 2 ^ 31 ∧ (int32 n = n ↔ - 2 ^ 31 ≤ n < 2 ^ 31).
Proof.
  unfold int32.
  pose proof (Z.mod_pos_bound (n + 2 ^ 31) (2 ^ 32) ltac:(lia)) as Hb.
  split; [lia|]. split.
  - intros H. lia.
  - intros H. rewrite Z.mod_small by lia. lia.
Qed.

(** X17: Lines 51-65 of [resourceTopLevelDomainCreate]: Create sends, as its
    first call, one create-domain call with the audit reference; the domain
    it sends has the configured name and exactly the configured admin users,
    each once.  Its organisation id is the configured one when that fits in
    32 bits, and is wrapped into the 32-bit range otherwise. *)
Theorem create_domain_sends_configured_domain {σ : Type} (zms : ZmsClient σ) (s : σ)
    (d : ResourceData) (name a : string) (admins : gset string) (ypm : Z) :
  d_Get TopLevelDomainSchema d "name" = VString name →
  d_Get TopLevelDomainSchema d "audit_ref" = VString a →
  d_Get TopLevelDomainSchema d "admin_users" = VSet admins →
  d_Get TopLevelDomainSchema d "ypm_id" = VInt ypm →
  ∃ detail later y,
    trace (run zms (resourceTopLevelDomainCreate d) s) =
      PostTopLevelDomain a detail :: later
    ∧ tld_Name detail = name
    ∧ list_to_set (tld_AdminUsers detail) = admins
    ∧ NoDup (tld_AdminUsers detail)
    ∧ tld_YpmId detail = Some y
    ∧ - 2 ^ 31 ≤ y < 2 ^ 31
    ∧ (y - ypm) mod 2 ^ 32 = 0
    ∧ (y = ypm ↔ - 2 ^ 31 ≤ ypm < 2 ^ 31).
Proof.
  intros Hname Ha Hadmins Hypm. unfold resourceTopLevelDomainCreate.
  rewrite Hname, Ha, Hadmins, Hypm. run_step.
  match goal with
  | |- context [zms (PostTopLevelDomain a ?detail) s] => exists detail
  end.
  destruct (zms (PostTopLevelDomain a _) s) as [r s1].
  destruct (run zms _ s1) as [[o s2] t]. exists t, (int32 ypm).
  cbn [tld_Name tld_AdminUsers tld_YpmId]. unfold convertToZmsResourceNameList, List.
  split; [done|]. split; [done|].
  split; [apply list_to_set_elements_L|]. split; [apply NoDup_elements|].
  split; [done|]. destruct (int32_range ypm) as [Hr Hiff].
  split; [done|]. split; [|done].
  unfold int32.
  pose proof (Z.div_mod (ypm + 2 ^ 31) (2 ^ 32) ltac:(lia)) as Hdiv.
  replace ((ypm + 2 ^ 31) mod 2 ^ 32 - 2 ^ 31 - ypm)
    with (- ((ypm + 2 ^ 31) / 2 ^ 32) * 2 ^ 32) by lia.
  apply Z_mod_mult.
Qed.

Lemma create_domain_sends_configured_domain_witness :
  ∃ detail later y,
    trace (run memory_zms (resourceTopLevelDomainCreate new_sports) ∅) =
      PostTopLevelDomain "done by terraform" detail :: later
    ∧ tld_Name detail = "sports"
    ∧ list_to_set (tld_AdminUsers detail) = ({["user.dana"]} : gset string)
    ∧ NoDup (tld_AdminUsers detail)
    ∧ tld_YpmId detail = Some y
    ∧ - 2 ^ 31 ≤ y < 2 ^ 31
    ∧ (y - 4711) mod 2 ^ 32 = 0
    ∧ (y = 4711 ↔ - 2 ^ 31 ≤ 4711 < 2 ^ 31).
Proof.
  apply (create_domain_sends_configured_domain memory_zms ∅ new_sports
           "sports" "done by terraform" {["user.dana"]} 4711); reflexivity.
Defined.

(** X18: Lines 62-65 of [resourceTopLevelDomainCreate]: when the create-domain
    call returns an error, Create returns it as it is, whatever domain value
    comes with it; no Read follows and the resource data, identifier
    included, is left as it was. *)
Theorem create_domain_failure {σ : Type} (zms : ZmsClient σ) (s s' : σ)
    (d : ResourceData) (name a : string) (admins : gset string) (ypm : Z)
    (r : option TopLevelDomain) (e : error) :
  d_Get TopLevelDomainSchema d "name" = VString name →
  d_Get TopLevelDomainSchema d "audit_ref" = VString a →
  d_Get TopLevelDomainSchema d "admin_users" = VSet admins →
  d_Get TopLevelDomainSchema d "ypm_id" = VInt ypm →
  zms (PostTopLevelDomain a
         (mkTopLevelDomain name (convertToZmsResourceNameList (List admins))
                           (Some (int32 ypm)))) s = ((r, Some e), s') →
  run zms (resourceTopLevelDomainCreate d) s =
    (Returned (d, Some e), s',
     [PostTopLevelDomain a
        (mkTopLevelDomain name (convertToZmsResourceNameList (List admins))
                          (Some (int32 ypm)))]).
Proof.
  intros Hname Ha Hadmins Hypm Hpost. unfold resourceTopLevelDomainCreate.
  rewrite Hname, Ha, Hadmins, Hypm. run_step. by rewrite Hpost.
Qed.

Lemma create_domain_failure_witness :
  run (fixed_zms (None, None) (None, None) (None, forbidden) None None)
      (resourceTopLevelDomainCreate new_sports) () =
    (Returned (new_sports, Some (ResourceError 403 "forbidden")), (),
     [PostTopLevelDomain "done by terraform"
        (mkTopLevelDomain "sports"
           (convertToZmsResourceNameList (List {["user.dana"]})) (Some (int32 4711)))]).
Proof.
  apply (create_domain_failure
           (fixed_zms (None, None) (None, None) (None, forbidden) None None) () ()
           new_sports "sports" "done by terraform" {["user.dana"]} 4711 None
           (ResourceError 403 "forbidden")); reflexivity.
Defined.

(** X19: Lines 66-70 of [resourceTopLevelDomainCreate]: when the create-domain
    call returns a domain, Create stores the domain name as the identifier
    and goes on with a Read of it, whose result it returns. *)
Theorem create_domain_then_read {σ : Type} (zms : ZmsClient σ) (s s' : σ)
    (d : ResourceData) (name a : string) (admins : gset string) (ypm : Z)
    (created : TopLevelDomain) :
  d_Get TopLevelDomainSchema d "name" = VString name →
  d_Get TopLevelDomainSchema d "audit_ref" = VString a →
  d_Get TopLevelDomainSchema d "admin_users" = VSet admins →
  d_Get TopLevelDomainSchema d "ypm_id" = VInt ypm →
  zms (PostTopLevelDomain a
         (mkTopLevelDomain name (convertToZmsResourceNameList (List admins))
                           (Some (int32 ypm)))) s = ((Some created, None), s') →
  result (run zms (resourceTopLevelDomainCreate d) s) =
    result (run zms (resourceTopLevelDomainRead (d_SetId d name)) s')
  ∧ final (run zms (resourceTopLevelDomainCreate d) s) =
      final (run zms (resourceTopLevelDomainRead (d_SetId d name)) s')
  ∧ trace (run zms (resourceTopLevelDomainCreate d) s) =
      PostTopLevelDomain a
        (mkTopLevelDomain name (convertToZmsResourceNameList (List admins))
                          (Some (int32 ypm)))
      :: trace (run zms (resourceTopLevelDomainRead (d_SetId d name)) s')
  ∧ ∃ later, trace (run zms (resourceTopLevelDomainRead (d_SetId d name)) s') =
               GetDomain name :: later.
Proof.
  intros Hname Ha Hadmins Hypm Hpost. unfold resourceTopLevelDomainCreate.
  rewrite Hname, Ha, Hadmins, Hypm. run_step. rewrite Hpost.
  split; [|split; [|split]];
    try by destruct (run zms (resourceTopLevelDomainRead (d_SetId d name)) s')
      as [[o s2] t].
  unfold resourceTopLevelDomainRead. run_step. cbn [d_Id d_SetId].
  destruct (zms (GetDomain name) s') as [r s2].
  destruct (run zms _ s2) as [[o s3] t]. by exists t.
Qed.

Lemma create_domain_then_read_witness :
  result (run memory_zms (resourceTopLevelDomainCreate new_sports) ∅) =
    result (run memory_zms (resourceTopLevelDomainRead (d_SetId new_sports "sports")) ∅)
  ∧ final (run memory_zms (resourceTopLevelDomainCreate new_sports) ∅) =
      final (run memory_zms (resourceTopLevelDomainRead (d_SetId new_sports "sports")) ∅)
  ∧ trace (run memory_zms (resourceTopLevelDomainCreate new_sports) ∅) =
      PostTopLevelDomain "done by terraform"
        (mkTopLevelDomain "sports"
           (convertToZmsResourceNameList (List {["user.dana"]})) (Some (int32 4711)))
      :: trace (run memory_zms
                  (resourceTopLevelDomainRead (d_SetId new_sports "sports")) ∅)
  ∧ ∃ later,
      trace (run memory_zms (resourceTopLevelDomainRead (d_SetId new_sports "sports")) ∅) =
        GetDomain "sports" :: later.
Proof.
  apply (create_domain_then_read memory_zms ∅ ∅ new_sports "sports"
           "done by terraform" {["user.dana"]} 4711
           (mkTopLevelDomain "sports"
              (convertToZmsResourceNameList (List {["user.dana"]})) (Some (int32 4711))));
    reflexivity.
Defined.

(** ** Read and Delete of a top-level domain *)

Lemma d_Set_tld_name (d : ResourceData) (x : string) :
  d_Set TopLevelDomainSchema d "name" (VString x) =
    (mkResourceData (d_Id d) (prior d) (planned d) (<["name" := VString x]> (written d)),
     None).
Proof. reflexivity. Qed.

Lemma d_Set_tld_admin_users (d : ResourceData) (l : list string) :
  d_Set TopLevelDomainSchema d "admin_users" (VList l) =
    (mkResourceData (d_Id d) (prior d) (planned d)
       (<["admin_users" := VSet (list_to_set l)]> (written d)), None).
Proof. reflexivity. Qed.

Lemma d_Set_tld_ypm_id (d : ResourceData) (y : Z) :
  d_Set TopLevelDomainSchema d "ypm_id" (VInt y) =
    (mkResourceData (d_Id d) (prior d) (planned d) (<["ypm_id" := VInt y]> (written d)),
     None).
Proof. reflexivity. Qed.

(** X20: Lines 76-91 of [resourceTopLevelDomainRead]: a domain fetch that fails
    otherwise than with a structured 404 makes Read return an error and
    leave the resource data, identifier included, as it was; it is the only
    call.  A structured error is wrapped, any other error is passed on as it
    is, and a fetch that returns neither a domain nor an error is reported
    as a certificate problem. *)
Theorem read_domain_failure_reported {σ : Type} (zms : ZmsClient σ) (s s' : σ)
    (d : ResourceData) (r : option Domain) (err : option error) :
  zms (GetDomain (d_Id d)) s = ((r, err), s') →
  (∀ msg, err ≠ Some (ResourceError 404 msg)) →
  (err = None → r = None) →
  run zms (resourceTopLevelDomainRead d) s =
    (Returned (d, Some
       match err with
       | Some (ResourceError code msg) =>
           errorString ("error retrieving Athenz Top level Domain: "
                        +:+ pretty code +:+ " " +:+ msg)
       | Some e => e
       | None =>
           errorString
             "error retrieving Athenz Top Level Domain - Make sure your cert/key are valid"
       end), s', [GetDomain (d_Id d)]).
Proof.
  intros Hget Hnot404 Hnil. unfold resourceTopLevelDomainRead.
  run_step. rewrite Hget.
  destruct err as [[code msg|msg]|].
  - destruct (Z.eqb_spec code 404) as [->|_]; [by destruct (Hnot404 msg) | done].
  - done.
  - by rewrite (Hnil eq_refl).
Qed.

Lemma read_domain_failure_reported_witness :
  run (fixed_zms (None, None) (None, refused) (None, None) None None)
      (resourceTopLevelDomainRead (stored "sports")) () =
    (Returned (stored "sports", Some (errorString "connection refused")), (),
     [GetDomain "sports"]).
Proof.
  apply (read_domain_failure_reported
           (fixed_zms (None, None) (None, refused) (None, None) None None) () ()
           (stored "sports") None refused);
    [reflexivity | discriminate | discriminate].
Defined.

(** X21: Lines 89-106 of [resourceTopLevelDomainRead]: when the domain is found,
    Read fetches the role [admin] of the domain; when that is found too, it
    keeps the identifier and stores the identifier as the name, the members
    of the admin role as the admin users and the organisation id of the
    domain. *)
Theorem read_domain_found {σ : Type} (zms : ZmsClient σ) (s s1 s2 : σ)
    (d : ResourceData) (dom : Domain) (y : Z) (admin : Role) :
  zms (GetDomain (d_Id d)) s = ((Some dom, None), s1) →
  dom_YpmId dom = Some y →
  zms (GetRole (d_Id d) "admin") s1 = ((Some admin, None), s2) →
  ∃ d',
    run zms (resourceTopLevelDomainRead d) s =
      (Returned (d', None), s2, [GetDomain (d_Id d); GetRole (d_Id d) "admin"])
    ∧ d_Id d' = d_Id d
    ∧ d_Get TopLevelDomainSchema d' "name" = VString (d_Id d)
    ∧ d_Get TopLevelDomainSchema d' "admin_users" =
        VSet (list_to_set (MemberName <$> RoleMembers admin))
    ∧ d_Get TopLevelDomainSchema d' "ypm_id" = VInt y
    ∧ d_Get TopLevelDomainSchema d' "audit_ref" = d_Get TopLevelDomainSchema d "audit_ref".
Proof.
  intros Hdom Hy Hadmin. unfold resourceTopLevelDomainRead.
  run_step. rewrite Hdom. rewrite d_Set_tld_name; cbn beta iota.
  run_step. cbn [d_Id]. rewrite Hadmin.
  rewrite d_Set_tld_admin_users; cbn beta iota. rewrite Hy.
  rewrite d_Set_tld_ypm_id; cbn beta iota.
  eexists. split; [reflexivity|]. split; [done|].
  unfold d_Get, flattenRoleMembers; cbn [written planned]. by simplify_map_eq.
Qed.

Lemma read_domain_found_witness :
  ∃ d',
    run (fixed_zms (Some sports_admin, None) (Some sports, None) (None, None) None None)
        (resourceTopLevelDomainRead (stored "sports")) () =
      (Returned (d', None), (), [GetDomain "sports"; GetRole "sports" "admin"])
    ∧ d_Id d' = "sports"
    ∧ d_Get TopLevelDomainSchema d' "name" = VString "sports"
    ∧ d_Get TopLevelDomainSchema d' "admin_users" =
        VSet (list_to_set (MemberName <$> RoleMembers sports_admin))
    ∧ d_Get TopLevelDomainSchema d' "ypm_id" = VInt 4711
    ∧ d_Get TopLevelDomainSchema d' "audit_ref" =
        d_Get TopLevelDomainSchema (stored "sports") "audit_ref".
Proof.
  apply (read_domain_found
           (fixed_zms (Some sports_admin, None) (Some sports, None) (None, None) None None)
           () () () (stored "sports") sports 4711 sports_admin); reflexivity.
Defined.

(** X22: Lines 95-98 of [resourceTopLevelDomainRead]: when the fetch of the admin
    role fails, Read returns that error as it is.  This holds for a 404 as
    well: a missing admin role is an error and does not clear the
    identifier. *)
Theorem read_domain_admin_role_failure {σ : Type} (zms : ZmsClient σ) (s s1 s2 : σ)
    (d : ResourceData) (dom : Domain) (r : option Role) (e : error) :
  zms (GetDomain (d_Id d)) s = ((Some dom, None), s1) →
  zms (GetRole (d_Id d) "admin") s1 = ((r, Some e), s2) →
  ∃ d',
    run zms (resourceTopLevelDomainRead d) s =
      (Returned (d', Some e), s2, [GetDomain (d_Id d); GetRole (d_Id d) "admin"])
    ∧ d_Id d' = d_Id d.
Proof.
  intros Hdom Hadmin. unfold resourceTopLevelDomainRead.
  run_step. rewrite Hdom. rewrite d_Set_tld_name; cbn beta iota.
  run_step. cbn [d_Id]. rewrite Hadmin. by eexists.
Qed.

Lemma read_domain_admin_role_failure_witness :
  ∃ d',
    run (fixed_zms (None, not_found) (Some sports, None) (None, None) None None)
        (resourceTopLevelDomainRead (stored "sports")) () =
      (Returned (d', Some (ResourceError 404 "not found")), (),
       [GetDomain "sports"; GetRole "sports" "admin"])
    ∧ d_Id d' = "sports".
Proof.
  apply (read_domain_admin_role_failure
           (fixed_zms (None, not_found) (Some sports, None) (None, None) None None)
           () () () (stored "sports") sports None (ResourceError 404 "not found"));
    reflexivity.
Defined.

(** X23: Lines 99 and 103 of [resourceTopLevelDomainRead]: neither the admin role
    nor the organisation id of the domain is checked before use: when the
    admin role fetch returns neither a role nor an error, or the domain has
    no organisation id, Read panics after the two fetches. *)
Theorem read_domain_nil_panics {σ : Type} (zms : ZmsClient σ) (s s1 s2 : σ)
    (d : ResourceData) (dom : Domain) (admin : option Role) :
  zms (GetDomain (d_Id d)) s = ((Some dom, None), s1) →
  zms (GetRole (d_Id d) "admin") s1 = ((admin, None), s2) →
  admin = None ∨ dom_YpmId dom = None →
  run zms (resourceTopLevelDomainRead d) s =
    (Panicked "runtime error: invalid memory address or nil pointer dereference", s2,
     [GetDomain (d_Id d); GetRole (d_Id d) "admin"]).
Proof.
  intros Hdom Hadmin Hnil. unfold resourceTopLevelDomainRead.
  run_step. rewrite Hdom. rewrite d_Set_tld_name; cbn beta iota.
  run_step. cbn [d_Id]. rewrite Hadmin.
  destruct admin as [admin|]; [|done].
  destruct Hnil as [?| ->]; [done|].
  by rewrite d_Set_tld_admin_users.
Qed.

Lemma read_domain_nil_panics_witness :
  run (fixed_zms (None, None) (Some sports, None) (None, None) None None)
      (resourceTopLevelDomainRead (stored "sports")) () =
    (Panicked "runtime error: invalid memory address or nil pointer dereference", (),
     [GetDomain "sports"; GetRole "sports" "admin"]).
Proof.
  apply (read_domain_nil_panics
           (fixed_zms (None, None) (Some sports, None) (None, None) None None)
           () () () (stored "sports") sports None); [reflexivity | reflexivity | by left].
Defined.

(** X24: Lines 109-118 of [resourceTopLevelDomainDelete]: Delete sends one
    delete-domain call for the stored identifier with the audit reference
    and returns what that call returns; it leaves the resource data as it
    was. *)
Theorem delete_domain_one_call {σ : Type} (zms : ZmsClient σ) (s : σ)
    (d : ResourceData) (a : string) :
  d_Get TopLevelDomainSchema d "audit_ref" = VString a →
  run zms (resourceTopLevelDomainDelete d) s =
    (Returned (d, (zms (DeleteTopLevelDomain (d_Id d) a) s).1),
     (zms (DeleteTopLevelDomain (d_Id d) a) s).2,
     [DeleteTopLevelDomain (d_Id d) a]).
Proof.
  intros Ha. unfold resourceTopLevelDomainDelete. rewrite Ha. run_step.
  by destruct (zms (DeleteTopLevelDomain (d_Id d) a) s) as [[e|] s1].
Qed.

Lemma delete_domain_one_call_witness :
  run (fixed_zms (None, None) (None, None) (None, None) None forbidden)
      (resourceTopLevelDomainDelete (stored "sports")) () =
    (Returned (stored "sports",
               (fixed_zms (None, None) (None, None) (None, None) None forbidden
                  (DeleteTopLevelDomain "sports" "done by terraform") ()).1),
     (fixed_zms (None, None) (None, None) (None, None) None forbidden
        (DeleteTopLevelDomain "sports" "done by terraform") ()).2,
     [DeleteTopLevelDomain "sports" "done by terraform"]).
Proof.
  apply (delete_domain_one_call
           (fixed_zms (None, None) (None, None) (None, None) None forbidden) ()
           (stored "sports") "done by terraform"); reflexivity.
Defined.

(** ** What the callbacks never send *)

(** X25: [resourceRoleRead] and [resourceTopLevelDomainRead]: whatever the
    resource data and whatever the service answers, a Read sends fetches
    only, at most one for a role and at most two for a domain. *)
Theorem reads_only_fetch {σ : Type} (zms : ZmsClient σ) (s : σ) (d : ResourceData) :
  Forall (λ c, is_fetch c = true) (trace (run zms (resourceRoleRead d) s))
  ∧ (length (trace (run zms (resourceRoleRead d) s)) ≤ 1)%nat
  ∧ Forall (λ c, is_fetch c = true) (trace (run zms (resourceTopLevelDomainRead d) s))
  ∧ (length (trace (run zms (resourceTopLevelDomainRead d) s)) ≤ 2)%nat.
Proof.
  split; [|split].
  - destruct (resourceRoleRead_calls zms s d) as [-> | (dn & rn & ->)];
      by repeat constructor.
  - destruct (resourceRoleRead_calls zms s d) as [-> | (dn & rn & ->)]; simpl; lia.
  - assert (∃ t, trace (run zms (resourceTopLevelDomainRead d) s) = GetDomain (d_Id d) :: t
                 ∧ (t = [] ∨ t = [GetRole (d_Id d) "admin"])) as (t & -> & Ht).
    { unfold resourceTopLevelDomainRead. run_step.
      destruct (zms (GetDomain (d_Id d)) s) as [[r err] s1].
      destruct err as [[code msg|msg]|];
        [destruct (code =? 404); by eexists; split; [|left] | by eexists; split; [|left] |].
      destruct r as [dom|]; [|by eexists; split; [|left]].
      rewrite d_Set_tld_name; cbn beta iota. run_step. cbn [d_Id].
      destruct (zms (GetRole (d_Id d) "admin") s1) as [[admin err] s2].
      destruct err as [e|]; [by eexists; split; [|right]|].
      destruct admin as [admin|]; [|by eexists; split; [|right]].
      rewrite d_Set_tld_admin_users; cbn beta iota.
      destruct (dom_YpmId dom) as [y|]; [|by eexists; split; [|right]].
      rewrite d_Set_tld_ypm_id; cbn beta iota. by eexists; split; [|right]. }
    destruct Ht as [-> | ->]; (split; [by repeat constructor | simpl; lia]).
Qed.

(** ** Create of a role, end to end *)

(** X7: Lines 61-98 of [resourceRoleCreate] with [resourceRoleRead]: for names
    without the separator, when the precheck answers 404, the write goes
    through and the Read that follows finds the role, Create returns no
    error after the calls fetch, write, fetch; the identifier stored is
    [<domain>:role.<role-name>] and the domain and name Read stores are the
    ones Create was given. *)
Theorem create_role_then_read {σ : Type} (zms : ZmsClient σ) (s s1 : σ)
    (d : ResourceData) (dn rn a : string) (r : option Role) (msg : string)
    (M : gset string) (T : gmap string string) :
  go_strings.Index dn ROLE_SEPARATOR = None →
  go_strings.Index rn ROLE_SEPARATOR = None →
  d_Get RoleSchema d "domain" = VString dn →
  d_Get RoleSchema d "name" = VString rn →
  d_Get RoleSchema d "audit_ref" = VString a →
  d_Get RoleSchema d "members" = VSet M →
  d_Get RoleSchema d "tags" = VMap T →
  zms (GetRole dn rn) s = ((r, Some (ResourceError 404 msg)), s1) →
  ∃ role,
    ∀ (s2 s3 : σ) (fetched : Role),
      zms (PutRole dn rn a role) s1 = (None, s2) →
      zms (GetRole dn rn) s2 = ((Some fetched, None), s3) →
      ∃ d',
        run zms (resourceRoleCreate d) s =
          (Returned (d', None), s3,
           [GetRole dn rn; PutRole dn rn a role; GetRole dn rn])
        ∧ d_Id d' = dn +:+ ":role." +:+ rn
        ∧ d_Get RoleSchema d' "domain" = VString dn
        ∧ d_Get RoleSchema d' "name" = VString rn.
Proof.
  intros Hdn' Hrn' Hdn Hrn Ha HM HT Hget.
  destruct (resourceRoleCreate_stores_id zms s s1 d dn rn a r msg M T
              Hdn' Hrn' Hdn Hrn Ha HM HT Hget) as (role & _ & Hrun).
  exists role. intros s2 s3 fetched Hput Hget2.
  destruct (Hrun s2 s3 fetched Hput Hget2) as (d' & Hd').
  by exists d'.
Qed.

Lemma create_role_then_read_witness :
  ∃ d' role,
    run memory_zms (resourceRoleCreate new_readers) ∅ =
      (Returned (d', None), {["sports:role.readers" := role]},
       [GetRole "sports" "readers";
        PutRole "sports" "readers" "done by terraform" role;
        GetRole "sports" "readers"])
    ∧ d_Id d' = "sports" +:+ ":role." +:+ "readers"
    ∧ d_Get RoleSchema d' "domain" = VString "sports"
    ∧ d_Get RoleSchema d' "name" = VString "readers".
Proof.
  destruct (create_role_then_read memory_zms ∅ ∅ new_readers
              "sports" "readers" "done by terraform" None "not found"
              {["user.bob"; "user.carol"]} {["env" := "staging"]})
    as (role & Hrun); [vm_compute; reflexivity ..|].
  destruct (Hrun {["sports:role.readers" := role]} {["sports:role.readers" := role]} role)
    as (d' & Hd'); [reflexivity | reflexivity |].
  by exists d', role.
Defined.



(** X9: [resourceRoleCreate]: whatever the resource data and whatever the
    service answers, Create sends at most three calls, of which at most one
    is a write, a [PutRole]; all others are role fetches. *)
Theorem create_role_calls {σ : Type} (zms : ZmsClient σ) (s : σ) (d : ResourceData) :
  Forall (λ c, is_fetch c = true ∨ is_PutRole c = true)
         (trace (run zms (resourceRoleCreate d) s))
  ∧ (length (List.filter is_PutRole (trace (run zms (resourceRoleCreate d) s))) ≤ 1)%nat
  ∧ (length (trace (run zms (resourceRoleCreate d) s)) ≤ 3)%nat.
Proof.
  assert (Hread : ∀ s' d',
            let t := trace (run zms (resourceRoleRead d') s') in
            Forall (λ c, is_fetch c = true ∨ is_PutRole c = true) t
            ∧ List.filter is_PutRole t = [] ∧ (length t ≤ 1)%nat).
  { intros s' d'. cbv zeta.
    destruct (resourceRoleRead_calls zms s' d') as [-> | (dn & rn & ->)];
      (split; [repeat constructor; by left | split; [done | simpl; lia]]). }
  unfold resourceRoleCreate.
  destruct (d_Get RoleSchema d "domain") as [dn| | | |];
    try (run_step; split; [constructor | split; simpl; lia]).
  run_step.
  destruct (d_Get RoleSchema d "name") as [rn| | | |];
    try (run_step; split; [constructor | split; simpl; lia]).
  run_step.
  destruct (zms (GetRole dn rn) s) as [[rc err] s1].
  destruct err as [[code msg|msg]|];
    [ | run_step; split; [repeat constructor; by left | split; simpl; lia]
      | destruct rc; run_step; (split; [repeat constructor; by left | split; simpl; lia]) ].
  destruct (code =? 404).
  2:{ specialize (Hread s1 (d_SetId d (fullResourceName dn rn))). cbv zeta in Hread.
      destruct (run zms (resourceRoleRead _) s1) as [[o s2] t].
      cbn [trace snd] in *. destruct Hread as (Hf & Hp & Hl).
      split; [constructor; [by left | done]|]. simpl. rewrite Hp. simpl. lia. }
  unfold d_GetOk.
  destruct (bool_decide (d_Get RoleSchema d "members" ≠ zero_of RoleSchema "members"));
    [destruct (d_Get RoleSchema d "members") as [| |M| |];
       try (run_step; split; [repeat constructor; by left | split; simpl; lia])|];
    run_step;
    (destruct (d_Get RoleSchema d "audit_ref") as [a| | | |];
       try (run_step; split; [repeat constructor; by left | split; simpl; lia]));
    run_step;
    (destruct (bool_decide (d_Get RoleSchema d "tags" ≠ zero_of RoleSchema "tags"));
       [destruct (d_Get RoleSchema d "tags") as [| | | |T];
          try (run_step; split; [repeat constructor; by left | split; simpl; lia])|]);
    run_step;
    match goal with
    | |- context [zms (PutRole dn rn a ?role) s1] =>
        destruct (zms (PutRole dn rn a role) s1) as [[e|] s2];
        [ run_step;
          split; [repeat constructor; by (left + right) | split; simpl; lia]
        | specialize (Hread s2 (d_SetId d (fullResourceName dn rn)));
          cbv zeta in Hread;
          destruct (run zms (resourceRoleRead _) s2) as [[o s3] t];
          cbn [trace snd] in *; destruct Hread as (Hf & Hp & Hl);
          split; [constructor; [by left | constructor; [by right | done]]|];
          simpl; rewrite Hp; simpl; lia ]
    end.
Qed.

(** The tags block sends nothing, a fetch, or a fetch and a write. *)
Lemma convergeTags_shape {σ : Type} (zms : ZmsClient σ) (s : σ)
    (d : ResourceData) (dn rn a : string) :
  trace (run zms (convergeTags d dn rn a) s) = []
  ∨ trace (run zms (convergeTags d dn rn a) s) = [GetRole dn rn]
  ∨ ∃ role, trace (run zms (convergeTags d dn rn a) s) =
              [GetRole dn rn; PutRole dn rn a role].
Proof.
  unfold convergeTags. destruct (d_HasChange RoleSchema d "tags"); [|by left].
  run_step. destruct (zms (GetRole dn rn) s) as [[role err] s1].
  destruct err as [e|]; [by right; left|].
  destruct (d_GetChange RoleSchema d "tags") as [o n].
  destruct n as [| | | |m]; try by right; left.
  run_step. destruct role as [role|]; [|by right; left].
  run_step. right. right. exists (set_Tags role (expandRoleTags m)).
  by destruct (zms (PutRole dn rn a (set_Tags role (expandRoleTags m))) s1) as [[e|] s2].
Qed.

(** X26: [resourceRoleUpdate]: whatever the resource data and whatever the
    service answers, Update sends only membership calls, role fetches and
    [PutRole]s, so it never deletes a role and never touches a domain; it
    sends at most one [PutRole]. *)
Theorem update_role_calls {σ : Type} (zms : ZmsClient σ) (s : σ) (d : ResourceData) :
  Forall (λ c, is_membership_call c = true ∨ is_fetch c = true ∨ is_PutRole c = true)
         (trace (run zms (resourceRoleUpdate d) s))
  ∧ (length (List.filter is_PutRole (trace (run zms (resourceRoleUpdate d) s))) ≤ 1)%nat.
Proof.
  destruct (go_strings.Split (d_Id d) ROLE_SEPARATOR) as [|dn [|rn rest]] eqn:Hid.
  1,2: unfold resourceRoleUpdate;
       rewrite splitResourceName_short by (rewrite Hid; simpl; lia);
       split; [constructor | simpl; lia].
  destruct (d_Get RoleSchema d "audit_ref") as [a| | | |] eqn:Ha.
  2-5: unfold resourceRoleUpdate;
       rewrite (splitResourceName_cons _ _ _ _ Hid), run_ret_bind, Ha;
       split; [constructor | simpl; lia].
  rewrite (resourceRoleUpdate_run zms d dn rn a rest s Hid Ha).
  pose proof (convergeMembers_calls zms d dn rn a s) as Hmem.
  destruct (run zms (convergeMembers d dn rn a) s) as [[o1 s1] t1].
  cbn [trace snd] in Hmem.
  assert (Hm1 : Forall (λ c, is_membership_call c = true ∨ is_fetch c = true
                             ∨ is_PutRole c = true) t1)
    by (eapply Forall_impl; [exact Hmem | by intros c [? _]; left]).
  assert (Hm2 : List.filter is_PutRole t1 = []).
  { apply filter_is_PutRole_membership.
    eapply Forall_impl; [exact Hmem | by intros c [? _]]. }
  destruct o1 as [[e1|]|msg1];
    [cbn [trace snd]; split; [done | rewrite Hm2; simpl; lia] |
    |cbn [trace snd]; split; [done | rewrite Hm2; simpl; lia]].
  pose proof (convergeTags_shape zms s1 d dn rn a) as Htags.
  pose proof (resourceRoleRead_trace zms) as Hread.
  destruct (run zms (convergeTags d dn rn a) s1) as [[o2 s2] t2].
  cbn [trace snd] in Htags.
  assert (Ht2 : Forall (λ c, is_membership_call c = true ∨ is_fetch c = true
                             ∨ is_PutRole c = true) t2
                ∧ (length (List.filter is_PutRole t2) ≤ 1)%nat).
  { destruct Htags as [-> | [-> | [role ->]]];
      (split; [repeat constructor; by (right; left) + (right; right) | simpl; lia]). }
  destruct Ht2 as [Hf2 Hp2].
  destruct o2 as [[e2|]|msg2];
    [cbn [trace snd]; split; [by apply Forall_app_2
                             | rewrite List.filter_app, Hm2; simpl; lia] |
    |cbn [trace snd]; split; [by apply Forall_app_2
                             | rewrite List.filter_app, Hm2; simpl; lia]].
  specialize (Hread s2 d dn rn rest Hid).
  destruct (run zms (resourceRoleRead d) s2) as [[o3 s3] t3].
  cbn [trace snd] in *. subst t3. split.
  - apply Forall_app_2; [done|]. apply Forall_app_2; [done|].
    constructor; [by right; left | constructor].
  - rewrite !List.filter_app, Hm2. simpl. rewrite app_nil_r. exact Hp2.
Qed.

(** ** The membership diff of Update *)

Section accepted.
Context {σ : Type} (zms : ZmsClient σ) (dn rn a : string).
Hypothesis accepted :
  ∀ c s, is_membership_call c = true → response_error c (zms c s).1 = None.

Lemma deleteMembers_accepted (remove : list RoleMember) (s : σ) :
  ∃ s', run zms (deleteMembers dn rn remove a) s =
          (Returned None, s', (λ m, DeleteMembership dn rn (MemberName m) a) <$> remove).
Proof.
  revert s. induction remove as [|m remove IH]; intros s.
  - by exists s.
  - cbn [deleteMembers]. run_step.
    pose proof (accepted (DeleteMembership dn rn (MemberName m) a) s eq_refl) as Hok.
    destruct (zms (DeleteMembership dn rn (MemberName m) a) s) as [r s1].
    cbn [response_error fst] in Hok. subst r.
    destruct (IH s1) as [s' ->]. by exists s'.
Qed.

Lemma putMembers_accepted (add : list RoleMember) (s : σ) :
  ∃ s', run zms (putMembers dn rn add a) s =
          (Returned None, s', (λ m, PutMembership dn rn m a) <$> add).
Proof.
  revert s. induction add as [|m add IH]; intros s.
  - by exists s.
  - cbn [putMembers]. run_step.
    pose proof (accepted (PutMembership dn rn m a) s eq_refl) as Hok.
    destruct (zms (PutMembership dn rn m a) s) as [r s1].
    cbn [response_error fst] in Hok. subst r.
    destruct (IH s1) as [s' ->]. by exists s'.
Qed.

Lemma updateRoleMembers_accepted (remove add : list RoleMember) (s : σ) :
  ∃ s', run zms (updateRoleMembers dn rn remove add a) s =
          (Returned None, s',
           ((λ m, DeleteMembership dn rn (MemberName m) a) <$> remove)
           ++ ((λ m, PutMembership dn rn m a) <$> add)).
Proof.
  unfold updateRoleMembers. rewrite run_bind.
  destruct (deleteMembers_accepted remove s) as [s1 ->].
  destruct (putMembers_accepted add s1) as [s2 ->]. by exists s2.
Qed.

End accepted.

(** Lines 149-157 of [resourceRoleUpdate]: Update runs [updateRoleMembers]
    on the two differences of the before and after sets, then goes on as the
    outcome tells. *)
Lemma resourceRoleUpdate_members_run {σ : Type} (zms : ZmsClient σ) (s : σ)
    (d : ResourceData) (dn rn a : string) (rest : list string) (O N : gset string) :
  go_strings.Split (d_Id d) ROLE_SEPARATOR = dn :: rn :: rest →
  d_Get RoleSchema d "audit_ref" = VString a →
  d_GetChange RoleSchema d "members" = (VSet O, VSet N) →
  run zms (resourceRoleUpdate d) s =
    match run zms (updateRoleMembers dn rn
                     (expandRoleMembers (List (Difference O N)))
                     (expandRoleMembers (List (Difference N O))) a) s with
    | (Returned (Some e), s1, t1) =>
        (Returned (d, Some (errorString
                     ("error updating group membership: " +:+ Error e))), s1, t1)
    | (Returned None, s1, t1) =>
        match run zms (convergeTags d dn rn a) s1 with
        | (Returned (Some e), s2, t2) => (Returned (d, Some e), s2, t1 ++ t2)
        | (Returned None, s2, t2) =>
            let '(o, s3, t3) := run zms (resourceRoleRead d) s2 in
            (o, s3, t1 ++ t2 ++ t3)
        | (Panicked msg, s2, t2) => (Panicked msg, s2, t1 ++ t2)
        end
    | (Panicked msg, s1, t1) => (Panicked msg, s1, t1)
    end.
Proof.
  intros Hid Ha Hchange.
  rewrite (resourceRoleUpdate_run zms d dn rn a rest s Hid Ha).
  unfold convergeMembers, handleChange.
  rewrite (d_HasChange_GetChange _ _ _ _ _ Hchange), Hchange.
  case_bool_decide as Hne.
  - run_step. rewrite run_bind.
    destruct (run zms (updateRoleMembers _ _ _ _ _) s) as [[[[e|]|msg] s1] t1];
      run_step; by rewrite ?app_nil_r.
  - assert (O = N) as -> by (destruct (decide (O = N)); [done | congruence]).
    by rewrite Difference_self.
Qed.

(** The two differences, as sets of names. *)
Lemma difference_lists (O N : gset string) :
  let remove := expandRoleMembers (List (Difference O N)) in
  let add := expandRoleMembers (List (Difference N O)) in
  let R : gset string := list_to_set (MemberName <$> remove) in
  let A : gset string := list_to_set (MemberName <$> add) in
  R = O ∖ N ∧ A = N ∖ O ∧ R ## A ∧ (O ∖ R) ∪ A = N
  ∧ NoDup (MemberName <$> remove) ∧ NoDup (MemberName <$> add).
Proof.
  intros remove add R A. subst R A remove add.
  rewrite !flatten_expand. unfold List, Difference.
  rewrite !list_to_set_elements_L.
  split; [done|]. split; [done|].
  split.
  { intros x [_ HxN]%elem_of_difference [HxN' _]%elem_of_difference. done. }
  split.
  { apply set_eq. intros x.
    rewrite elem_of_union, !elem_of_difference.
    destruct (decide (x ∈ O)), (decide (x ∈ N)); tauto. }
  split; apply NoDup_elements.
Qed.

(** C1: for the before and after member sets [O] and [N], Update hands to
    [updateRoleMembers] a list to remove and a list to add that name exactly
    the members of [O ∖ N] and of [N ∖ O], each once; the two are disjoint,
    and removing the first from [O] and adding the second gives [N].  Members
    are compared by their identity string.  Against a service that accepts
    every membership call, the membership calls of the Update are one
    removal for each member of the first list, then one addition for each of
    the second. *)
Theorem membership_diff {σ : Type} (zms : ZmsClient σ) (s : σ)
    (d : ResourceData) (dn rn a : string) (rest : list string) (O N : gset string) :
  go_strings.Split (d_Id d) ROLE_SEPARATOR = dn :: rn :: rest →
  d_Get RoleSchema d "audit_ref" = VString a →
  d_GetChange RoleSchema d "members" = (VSet O, VSet N) →
  let remove := expandRoleMembers (List (Difference O N)) in
  let add := expandRoleMembers (List (Difference N O)) in
  let R : gset string := list_to_set (MemberName <$> remove) in
  let A : gset string := list_to_set (MemberName <$> add) in
  run zms (resourceRoleUpdate d) s =
    match run zms (updateRoleMembers dn rn remove add a) s with
    | (Returned (Some e), s1, t1) =>
        (Returned (d, Some (errorString
                     ("error updating group membership: " +:+ Error e))), s1, t1)
    | (Returned None, s1, t1) =>
        match run zms (convergeTags d dn rn a) s1 with
        | (Returned (Some e), s2, t2) => (Returned (d, Some e), s2, t1 ++ t2)
        | (Returned None, s2, t2) =>
            let '(o, s3, t3) := run zms (resourceRoleRead d) s2 in
            (o, s3, t1 ++ t2 ++ t3)
        | (Panicked msg, s2, t2) => (Panicked msg, s2, t1 ++ t2)
        end
    | (Panicked msg, s1, t1) => (Panicked msg, s1, t1)
    end
  ∧ R = O ∖ N ∧ A = N ∖ O ∧ R ## A ∧ (O ∖ R) ∪ A = N
  ∧ NoDup (MemberName <$> remove) ∧ NoDup (MemberName <$> add)
  ∧ ((∀ c s', is_membership_call c = true → response_error c (zms c s').1 = None) →
     List.filter is_membership_call (trace (run zms (resourceRoleUpdate d) s)) =
       ((λ m, DeleteMembership dn rn (MemberName m) a) <$> remove)
       ++ ((λ m, PutMembership dn rn m a) <$> add)).
Proof.
  intros Hid Ha Hchange remove add R A.
  pose proof (resourceRoleUpdate_members_run zms s d dn rn a rest O N Hid Ha Hchange)
    as Hrun. fold remove add in Hrun.
  split; [exact Hrun|].
  destruct (difference_lists O N) as (HR & HA & Hdisj & Hunion & HndR & HndA).
  split; [exact HR|]. split; [exact HA|]. split; [exact Hdisj|].
  split; [exact Hunion|]. split; [exact HndR|]. split; [exact HndA|].
  intros Hacc. rewrite Hrun.
  destruct (updateRoleMembers_accepted zms dn rn a Hacc remove add s) as [s1 ->].
  pose proof (convergeTags_calls zms d dn rn a s1) as Htags.
  assert (Hnone : ∀ t, Forall (λ c, is_membership_call c = false ∧ target c = Some (dn, rn)) t →
                       List.filter is_membership_call t = []).
  { intros t Ht. apply filter_membership_none.
    eapply Forall_impl; [exact Ht | by intros c [? _]]. }
  pose proof (resourceRoleRead_trace zms) as Hread.
  destruct (run zms (convergeTags d dn rn a) s1) as [[[[e|]|msg] s2] t2];
    cbn [trace snd] in *.
  - rewrite List.filter_app, (Hnone t2 Htags), app_nil_r, List.filter_app.
    by rewrite !filter_membership_fmap.
  - specialize (Hread s2 d dn rn rest Hid).
    destruct (run zms (resourceRoleRead d) s2) as [[o s3] t3].
    cbn [trace snd] in *. subst t3.
    rewrite !List.filter_app, (Hnone t2 Htags). simpl. rewrite app_nil_r.
    by rewrite !filter_membership_fmap.
  - rewrite List.filter_app, (Hnone t2 Htags), app_nil_r, List.filter_app.
    by rewrite !filter_membership_fmap.
Qed.

Lemma membership_diff_witness :
  let remove := expandRoleMembers (List (Difference {["user.alice"; "user.bob"]}
                                                    {["user.bob"; "user.carol"]})) in
  let add := expandRoleMembers (List (Difference {["user.bob"; "user.carol"]}
                                                 {["user.alice"; "user.bob"]})) in
  List.filter is_membership_call
    (trace (run memory_zms (resourceRoleUpdate changed_readers)
              {["sports:role.readers" := readers]})) =
    ((λ m, DeleteMembership "sports" "readers" (MemberName m) "done by terraform")
       <$> remove)
    ++ ((λ m, PutMembership "sports" "readers" m "done by terraform") <$> add).
Proof.
  intros remove add.
  apply (membership_diff memory_zms {["sports:role.readers" := readers]}
           changed_readers "sports" "readers" "done by terraform" []
           {["user.alice"; "user.bob"]} {["user.bob"; "user.carol"]});
    [reflexivity | reflexivity | reflexivity |].
  intros c s' Hc. destruct c; try discriminate Hc; reflexivity.
Defined.
